(** * AstReferenceResolver: resolving TSDoc declaration references

    A shallow embedding of [AstReferenceResolver] (api-extractor,
    [analyzer/AstReferenceResolver.ts]) and the properties of its
    [resolve], [_getMemberReferenceIdentifier] and [_selectDeclaration]
    methods.

    The resolver returns [AstDeclaration | ResolverFailure]; here that is
    the sum [AstDeclaration + ResolverFailure], and every early
    [return new ResolverFailure(...)] is an [inr]. *)

From Stdlib Require Import String Ascii.
From stdpp Require Import base option list strings gmap.

Open Scope string_scope.

(** ** The TypeScript compiler's declaration kinds

    [ts.SyntaxKind] is a large enumeration of the compiler; the members
    listed are the seven that the resolver's [switch] maps selectors to,
    and the kinds of the class, interface and enum members that occur as
    children of a declaration. *)
Module ts.

Inductive SyntaxKind : Type :=
| ClassDeclaration
| EnumDeclaration
| FunctionDeclaration
| InterfaceDeclaration
| ModuleDeclaration
| TypeAliasDeclaration
| VariableDeclaration
| Constructor
| MethodDeclaration
| MethodSignature
| PropertyDeclaration
| PropertySignature
| EnumMember.

#[global] Instance SyntaxKind_eq_dec : EqDecision SyntaxKind.
Proof. solve_decision. Defined.

End ts.

(** ** The parsed reference ([@microsoft/tsdoc]) *)
Module tsdoc.

(** [enum SelectorKind]: the selector families of TSDoc. *)
Inductive SelectorKind : Type :=
| Error
| Label
| Index
| System.

#[global] Instance SelectorKind_eq_dec : EqDecision SelectorKind.
Proof. solve_decision. Defined.

(** [DocMemberSelector]: the text after the colon and its family. *)
Module DocMemberSelector.
Record t : Type := mk { selector : string; selectorKind : SelectorKind }.
End DocMemberSelector.

(** [DocMemberIdentifier]: a plain member name. *)
Module DocMemberIdentifier.
Record t : Type := mk { identifier : string }.
End DocMemberIdentifier.

(** [DocMemberSymbol]: an ECMAScript symbol name such as
    [[Symbol.iterator]]; the resolver only tests its presence. *)
Module DocMemberSymbol.
Record t : Type := mk { symbolReference : string }.
End DocMemberSymbol.

(** [DocMemberReference]: one segment of the dotted path; each of the
    three parts may be [undefined]. *)
Module DocMemberReference.
Record t : Type := mk {
  memberSymbol : option DocMemberSymbol.t;
  memberIdentifier : option DocMemberIdentifier.t;
  selector : option DocMemberSelector.t
}.
End DocMemberReference.

(** [DocDeclarationReference]: the whole reference. *)
Module DocDeclarationReference.
Record t : Type := mk {
  packageName : option string;
  importPath : option string;
  memberReferences : list DocMemberReference.t
}.
End DocDeclarationReference.

End tsdoc.

Import tsdoc.

(** ** The declaration graph and the symbol table *)

(** Modelled from the spec: the class [AstDeclaration] ([./AstDeclaration])
    is not among the sources.  A Declaration Node carries its [kind]
    (the resolver reads it as [x.declaration.kind]), the identifier it is
    looked up by, and its ordered child Declaration Nodes; several
    children may share an identifier. *)
#[warnings="-register-all"]
Inductive AstDeclaration : Type :=
  MkAstDeclaration {
    declaration_kind : ts.SyntaxKind;
    astSymbol_localName : string;
    children : list AstDeclaration
  }.

(** Modelled from the spec: the method [AstDeclaration.findChildrenWithName]
    is not among the sources.  "Children are looked up by exact
    identifier match": the children whose identifier equals [name], in
    their order. *)
Definition findChildrenWithName (d : AstDeclaration) (name : string)
  : list AstDeclaration :=
  filter (fun child => astSymbol_localName child = name) (children d).

(** Modelled from the spec: [AstEntity] ([./AstSymbolTable]) is not among
    the sources.  An Entity is a Local Entity, owning the Declaration
    Nodes of one exported name ([AstSymbol], read by the resolver through
    [astDeclarations] and [localName]), or an Imported Entity
    ([AstImport]) with an opaque target. *)
Inductive AstEntity : Type :=
| AstSymbol (localName : string) (astDeclarations : list AstDeclaration)
| AstImport (modulePath : string) (exportName : string).

(** [ts.SourceFile], by its file name. *)
Record SourceFile : Type := { fileName : string }.

(** Modelled from the spec: [WorkingPackage] ([../collector/WorkingPackage])
    is not among the sources; the resolver reads its [name] and its
    [entryPointSourceFile]. *)
Record WorkingPackage : Type := {
  name : string;
  entryPointSourceFile : SourceFile
}.

(** Modelled from the spec: [AstModule] ([./AstModule]) is not among the
    sources; a module handle. *)
Record AstModule : Type := { sourceFile : SourceFile }.

(** Modelled from the spec: [AstSymbolTable] ([./AstSymbolTable]) is not
    among the sources.  "mapping: module -> (name -> Entity)", one Entity
    per (module, name) pair. *)
Record AstSymbolTable : Type := {
  moduleExports : gmap string (gmap string AstEntity)
}.

(** Modelled from the spec: [rootModuleOf(workingPackage) -> moduleHandle]. *)
Definition fetchAstModuleFromWorkingPackage
  (table : AstSymbolTable) (entryPoint : SourceFile) : AstModule :=
  {| sourceFile := entryPoint |}.

(** Modelled from the spec: [lookupExport(moduleHandle, name) -> Entity | absent]. *)
Definition tryGetExportOfAstModule
  (table : AstSymbolTable) (exportName : string) (astModule : AstModule)
  : option AstEntity :=
  match moduleExports table !! fileName (sourceFile astModule) with
  | Some exports => exports !! exportName
  | None => None
  end.

(** ** Failures *)

(** [class ResolverFailure]: a value carrying the [reason] text. *)
Record ResolverFailure : Type := { reason : string }.

(** The double-quote character of the template literals. *)
Definition dq : string := String "034"%char EmptyString.

(** [`"${s}"`] *)
Definition quoted (s : string) : string := dq +:+ s +:+ dq.

(** The failure taxonomy of the specification: each kind is the
    [ResolverFailure] that the source constructs at that place, with its
    reason text. *)
Definition UnsupportedExternalPackage : ResolverFailure :=
  {| reason := "External package references are not supported" |}.

Definition UnsupportedImportPath : ResolverFailure :=
  {| reason := "Import paths are not supported" |}.

Definition EmptyReference : ResolverFailure :=
  {| reason := "Package references are not supported" |}.

Definition UnknownExport (packageName exportName : string) : ResolverFailure :=
  {| reason := "The package " +:+ quoted packageName +:+
               " does not have an export " +:+ quoted exportName |}.

Definition UnsupportedReexport : ResolverFailure :=
  {| reason := "Reexported declarations are not supported" |}.

Definition UnsupportedSymbolSelector : ResolverFailure :=
  {| reason := "ECMAScript symbol selectors are not supported" |}.

Definition MissingMemberIdentifier : ResolverFailure :=
  {| reason := "The member identifier is missing in the root member reference" |}.

Definition NoMatchingMember (memberName : string) : ResolverFailure :=
  {| reason := "No member was found with name " +:+ quoted memberName |}.

Definition AmbiguousReference (astSymbolName : string) : ResolverFailure :=
  {| reason := "The reference is ambiguous because " +:+ quoted astSymbolName +:+
               " has more than one declaration; you need to add a TSDoc member reference selector" |}.

Definition UnsupportedSelectorFamily (selectorName : string) : ResolverFailure :=
  {| reason := "The selector " +:+ quoted selectorName +:+
               " is not a supported selector type" |}.

Definition UnsupportedSelectorValue (selectorName : string) : ResolverFailure :=
  {| reason := "Unsupported system selector " +:+ quoted selectorName |}.

Definition NoDeclarationForSelector (astSymbolName selectorName : string)
  : ResolverFailure :=
  {| reason := "A declaration for " +:+ quoted astSymbolName +:+
               " was not found that matches the TSDoc selector " +:+
               quoted selectorName |}.

Definition AmbiguousSelectorMatch (astSymbolName selectorName : string)
  : ResolverFailure :=
  {| reason := "More than one declaration " +:+ quoted astSymbolName +:+
               " matches the TSDoc selector " +:+ quoted selectorName |}.

(** The result of a step: a value or the failure that ends resolution. *)
Definition Resolved (A : Type) : Type := (A + ResolverFailure)%type.

(** [const x = e; if (x instanceof ResolverFailure) { return x; } k] *)
Definition orReturn {A B : Type} (e : Resolved A) (k : A -> Resolved B)
  : Resolved B :=
  match e with
  | inl x => k x
  | inr failure => inr failure
  end.

Notation "'let?' x ':=' e 'in' k" :=
  (orReturn e (fun x => k))
  (at level 10, x name, e at level 100, k at level 200).

(** ** The resolver *)

(** [_getMemberReferenceIdentifier] *)
Definition _getMemberReferenceIdentifier (memberReference : DocMemberReference.t)
  : Resolved string :=
  match DocMemberReference.memberSymbol memberReference with
  | Some _ => inr UnsupportedSymbolSelector
  | None =>
    match DocMemberReference.memberIdentifier memberReference with
    | None => inr MissingMemberIdentifier
    | Some memberIdentifier => inl (DocMemberIdentifier.identifier memberIdentifier)
    end
  end.

(** The [switch (selectorName)] of [_selectDeclaration]; [None] is its
    [default:] case. *)
Definition selectorSyntaxKind (selectorName : string) : option ts.SyntaxKind :=
  if decide (selectorName = "class") then Some ts.ClassDeclaration
  else if decide (selectorName = "enum") then Some ts.EnumDeclaration
  else if decide (selectorName = "function") then Some ts.FunctionDeclaration
  else if decide (selectorName = "interface") then Some ts.InterfaceDeclaration
  else if decide (selectorName = "namespace") then Some ts.ModuleDeclaration
  else if decide (selectorName = "type") then Some ts.TypeAliasDeclaration
  else if decide (selectorName = "variable") then Some ts.VariableDeclaration
  else None.

(** [_selectDeclaration] *)
Definition _selectDeclaration
  (astDeclarations : list AstDeclaration)
  (memberReference : DocMemberReference.t)
  (astSymbolName : string) : Resolved AstDeclaration :=
  match DocMemberReference.selector memberReference with
  | None =>
    match astDeclarations with
    | [only] => inl only
    | _ => inr (AmbiguousReference astSymbolName)
    end
  | Some selector =>
    let selectorName := DocMemberSelector.selector selector in
    if decide (DocMemberSelector.selectorKind selector <> System)
    then inr (UnsupportedSelectorFamily selectorName)
    else
      match selectorSyntaxKind selectorName with
      | None => inr (UnsupportedSelectorValue selectorName)
      | Some kind =>
        let matches := filter (fun x => declaration_kind x = kind) astDeclarations in
        match matches with
        | [] => inr (NoDeclarationForSelector astSymbolName selectorName)
        | [only] => inl only
        | _ :: _ :: _ => inr (AmbiguousSelectorMatch astSymbolName selectorName)
        end
      end
  end.

(** The body of the [for] loop of [resolve]: one descent step from
    [currentDeclaration] along [memberReference]. *)
Definition descendStep
  (currentDeclaration : AstDeclaration) (memberReference : DocMemberReference.t)
  : Resolved AstDeclaration :=
  let? memberName := _getMemberReferenceIdentifier memberReference in
  let matchingChildren := findChildrenWithName currentDeclaration memberName in
  match matchingChildren with
  | [] => inr (NoMatchingMember memberName)
  | _ :: _ => _selectDeclaration matchingChildren memberReference memberName
  end.

(** The [for] loop of [resolve], over the member references from index 1
    on: it returns from [resolve] at the first failure. *)
Fixpoint descend
  (currentDeclaration : AstDeclaration) (rest : list DocMemberReference.t)
  : Resolved AstDeclaration :=
  match rest with
  | [] => inl currentDeclaration
  | memberReference :: rest' =>
    let? selectedDeclaration := descendStep currentDeclaration memberReference in
    descend selectedDeclaration rest'
  end.

(** [declarationReference.packageName !== undefined &&
     declarationReference.packageName !== this._workingPackage.name] *)
Definition isExternalPackage
  (workingPackage : WorkingPackage) (packageName : option string) : bool :=
  match packageName with
  | Some p => bool_decide (p <> name workingPackage)
  | None => false
  end.

(** [if (declarationReference.importPath)]: [undefined] and the empty
    string are falsy. *)
Definition truthy (s : option string) : bool :=
  match s with
  | Some EmptyString => false
  | Some (String _ _) => true
  | None => false
  end.

(** [resolve] *)
Definition resolve
  (astSymbolTable : AstSymbolTable) (workingPackage : WorkingPackage)
  (declarationReference : DocDeclarationReference.t)
  : Resolved AstDeclaration :=
  if isExternalPackage workingPackage
       (DocDeclarationReference.packageName declarationReference)
  then inr UnsupportedExternalPackage
  else if truthy (DocDeclarationReference.importPath declarationReference)
  then inr UnsupportedImportPath
  else
    let astModule :=
      fetchAstModuleFromWorkingPackage astSymbolTable
        (entryPointSourceFile workingPackage) in
    match DocDeclarationReference.memberReferences declarationReference with
    | [] => inr EmptyReference
    | rootMemberReference :: rest =>
      let? exportName := _getMemberReferenceIdentifier rootMemberReference in
      match tryGetExportOfAstModule astSymbolTable exportName astModule with
      | None => inr (UnknownExport (name workingPackage) exportName)
      | Some (AstImport _ _) => inr UnsupportedReexport
      | Some (AstSymbol localName astDeclarations) =>
        let? currentDeclaration :=
          _selectDeclaration astDeclarations rootMemberReference localName in
        descend currentDeclaration rest
      end
    end.

(** ** A small package, for the examples

    Working package [widgets]: the class [Button] with one method
    [onClick] and two overloads of [resize]; [Shape], a merged interface
    and class; the namespace [Layout] with the class [Grid] and its
    method [pack]; [Legacy], a re-export. *)
Module Widgets.

Definition entryPoint : SourceFile := {| fileName := "index.d.ts" |}.

Definition workingPackage : WorkingPackage :=
  {| name := "widgets"; entryPointSourceFile := entryPoint |}.

Definition onClick : AstDeclaration :=
  MkAstDeclaration ts.MethodDeclaration "onClick" [].

Definition resize1 : AstDeclaration :=
  MkAstDeclaration ts.MethodDeclaration "resize" [].

Definition resize2 : AstDeclaration :=
  MkAstDeclaration ts.MethodDeclaration "resize" [].

Definition Button : AstDeclaration :=
  MkAstDeclaration ts.ClassDeclaration "Button" [onClick; resize1; resize2].

Definition ShapeInterface : AstDeclaration :=
  MkAstDeclaration ts.InterfaceDeclaration "Shape" [].

Definition ShapeClass : AstDeclaration :=
  MkAstDeclaration ts.ClassDeclaration "Shape" [].

Definition pack : AstDeclaration :=
  MkAstDeclaration ts.MethodDeclaration "pack" [].

Definition Grid : AstDeclaration :=
  MkAstDeclaration ts.ClassDeclaration "Grid" [pack].

Definition Layout : AstDeclaration :=
  MkAstDeclaration ts.ModuleDeclaration "Layout" [Grid].

Definition exports : gmap string AstEntity :=
  <["Button" := AstSymbol "Button" [Button]]>
  (<["Shape" := AstSymbol "Shape" [ShapeInterface; ShapeClass]]>
  (<["Layout" := AstSymbol "Layout" [Layout]]>
  (<["Legacy" := AstImport "legacy-widgets" "Legacy"]> ∅))).

Definition table : AstSymbolTable :=
  {| moduleExports := <["index.d.ts" := exports]> ∅ |}.

(** A plain segment [name], and a segment [name:tag] with a system
    selector. *)
Definition plain (name : string) : DocMemberReference.t :=
  DocMemberReference.mk None (Some (DocMemberIdentifier.mk name)) None.

Definition selected (name tag : string) : DocMemberReference.t :=
  DocMemberReference.mk None (Some (DocMemberIdentifier.mk name))
    (Some (DocMemberSelector.mk tag System)).

(** A segment with neither a symbol nor an identifier. *)
Definition anonymous : DocMemberReference.t :=
  DocMemberReference.mk None None None.

(** A segment keyed by an ECMAScript symbol. *)
Definition symbolKeyed (symbol : string) : DocMemberReference.t :=
  DocMemberReference.mk (Some (DocMemberSymbol.mk symbol)) None None.

Definition local (segments : list DocMemberReference.t)
  : DocDeclarationReference.t :=
  DocDeclarationReference.mk None None segments.

End Widgets.


(** ** The recognized selectors

    The specification's table of kind tags: class, enum, function,
    interface, namespace, type alias, variable, each with the
    declaration kind it selects. *)
Definition recognizedKinds : list (string * ts.SyntaxKind) :=
  [ ("class", ts.ClassDeclaration);
    ("enum", ts.EnumDeclaration);
    ("function", ts.FunctionDeclaration);
    ("interface", ts.InterfaceDeclaration);
    ("namespace", ts.ModuleDeclaration);
    ("type", ts.TypeAliasDeclaration);
    ("variable", ts.VariableDeclaration) ].

(** ** Paths in the declaration graph

    The relations in which the loop's results are stated. *)

(** [ChildPath from names to]: [to] is reached from [from] through
    children carrying the identifiers [names], in order. *)
Inductive ChildPath : AstDeclaration -> list string -> AstDeclaration -> Prop :=
| ChildPath_nil (node : AstDeclaration) : ChildPath node [] node
| ChildPath_cons (node child target : AstDeclaration)
    (name : string) (names : list string) :
    child ∈ children node ->
    astSymbol_localName child = name ->
    ChildPath child names target ->
    ChildPath node (name :: names) target.

(** [UniquePath from names to]: as [ChildPath], and at every node of the
    path the child taken is the only child carrying the identifier. *)
Inductive UniquePath : AstDeclaration -> list string -> AstDeclaration -> Prop :=
| UniquePath_nil (node : AstDeclaration) : UniquePath node [] node
| UniquePath_cons (node child target : AstDeclaration)
    (name : string) (names : list string) :
    findChildrenWithName node name = [child] ->
    UniquePath child names target ->
    UniquePath node (name :: names) target.

(** A segment with a plain name and no selector. *)
Definition plainSegment (memberName : string) : DocMemberReference.t :=
  DocMemberReference.mk None (Some (DocMemberIdentifier.mk memberName)) None.

(** [Resolvable memberReference]: the segment has no member symbol, has
    a member identifier, and its selector, if any, is a system selector
    with a recognized tag. *)
Definition Resolvable (memberReference : DocMemberReference.t) : Prop :=
  DocMemberReference.memberSymbol memberReference = None
  /\ is_Some (DocMemberReference.memberIdentifier memberReference)
  /\ forall selector,
       DocMemberReference.selector memberReference = Some selector ->
       DocMemberSelector.selectorKind selector = System
       /\ DocMemberSelector.selector selector ∈ recognizedKinds.*1.

(** * PurgeManager: the logic of "rush purge"

    A shallow embedding of [PurgeManager] (rush-lib,
    [logic/PurgeManager.ts]).  Its methods only act on the console and on
    two [AsyncRecycler] objects; here a method returns the sequence of
    these actions, in the order in which the source performs them. *)
Module Purge.

(** What the class reads from its environment: the four functions of
    Node's [path] module that it calls, the global [__dirname],
    [colors.yellow], and the constant
    [RushConstants.rushRecyclerFolderName]. *)
Record Environment : Type := {
  path_join : string -> string -> string;
  path_resolve : string -> string;
  path_relative : string -> string -> string;
  path_isAbsolute : string -> bool;
  __dirname : string;
  colors_yellow : string -> string;
  rushRecyclerFolderName : string
}.

(** [RushConfiguration] and [RushGlobalFolder], by the properties that
    the class reads. *)
Record RushConfiguration : Type := { commonTempFolder : string }.

Record RushGlobalFolder : Type := {
  path : string;
  nodeSpecificPath : string
}.

(** [AsyncRecycler], by the folder it is constructed with
    ([new AsyncRecycler(recyclerFolder)]). *)
Record AsyncRecycler : Type := { recyclerFolder : string }.

(** The actions of the class: a line on the console, and the two
    methods of [AsyncRecycler] that it calls. *)
Inductive Action : Type :=
| ConsoleLog (text : string)
| MoveAllItemsInFolder (recycler : AsyncRecycler)
    (resolvedFolderPath : string) (membersToExclude : list string)
| DeleteAll (recycler : AsyncRecycler).

(** A computation that performs actions and returns a value. *)
Definition Acting (A : Type) : Type := (A * list Action)%type.

Definition pure {A : Type} (value : A) : Acting A := (value, []).

Definition perform (action : Action) : Acting unit := (tt, [action]).

Definition andThen {A B : Type} (first : Acting A) (next : A -> Acting B)
  : Acting B :=
  let (value, actions) := first in
  let (result, actions') := next value in
  (result, (actions ++ actions')%list).

Notation "'let!' x ':=' e 'in' k" :=
  (andThen e (fun x => k))
  (at level 10, x name, e at level 100, k at level 200).

Notation "'do!' e 'in' k" :=
  (andThen e (fun _ => k))
  (at level 10, e at level 100, k at level 200).

(** The actions of a computation. *)
Definition actionsOf {A : Type} (computation : Acting A) : list Action :=
  snd computation.

(** The class and its four fields. *)
Record PurgeManager : Type := {
  _rushConfiguration : RushConfiguration;
  _rushGlobalFolder : RushGlobalFolder;
  _commonTempFolderRecycler : AsyncRecycler;
  _rushUserFolderRecycler : AsyncRecycler
}.

(** [constructor] *)
Definition constructor (env : Environment)
  (rushConfiguration : RushConfiguration) (rushGlobalFolder : RushGlobalFolder)
  : PurgeManager :=
  let commonAsyncRecyclerPath :=
    path_join env (commonTempFolder rushConfiguration)
      (rushRecyclerFolderName env) in
  let rushUserAsyncRecyclerPath :=
    path_join env (path rushGlobalFolder) (rushRecyclerFolderName env) in
  {| _rushConfiguration := rushConfiguration;
     _rushGlobalFolder := rushGlobalFolder;
     _commonTempFolderRecycler := {| recyclerFolder := commonAsyncRecyclerPath |};
     _rushUserFolderRecycler := {| recyclerFolder := rushUserAsyncRecyclerPath |} |}.

(** The characters of the regular expression [/[\\\/]/]: backslash and
    slash. *)
Definition isPathSeparator (c : ascii) : bool :=
  (Ascii.eqb c "092" || Ascii.eqb c "047")%char.

(** [text.split(/[\\\/]/)]: the pieces of [text] between separators; a
    text without separators, also the empty one, is its only piece. *)
Fixpoint split (text : string) : list string :=
  match text with
  | EmptyString => [EmptyString]
  | String c rest =>
    if isPathSeparator c then EmptyString :: split rest
    else
      match split rest with
      | piece :: pieces => String c piece :: pieces
      | [] => [String c EmptyString]
      end
  end.

(** [pieces[0]] of the array that [split] returns, which always has an
    element at index 0. *)
Definition firstPiece (pieces : list string) : string :=
  match pieces with
  | piece :: _ => piece
  | [] => EmptyString
  end.

(** [_getMembersToExclude] *)
Definition _getMembersToExclude (env : Environment)
  (folderToRecycle : string) (showWarning : bool) : Acting (list string) :=
  let membersToExclude := [rushRecyclerFolderName env] in
  let currentFolderPath := path_resolve env (__dirname env) in
  let relative := path_relative env folderToRecycle currentFolderPath in
  if negb (path_isAbsolute env relative) then
    let firstPart := firstPiece (split relative) in
    if (0 <? String.length firstPart)%nat && negb (String.eqb firstPart "..") then
      let membersToExclude := (membersToExclude ++ [firstPart])%list in
      if showWarning then
        do! perform (ConsoleLog (colors_yellow env
              ("The active process's folder will not be deleted: " +:+
               path_join env folderToRecycle firstPart))) in
        pure membersToExclude
      else pure membersToExclude
    else pure membersToExclude
  else pure membersToExclude.

(** [deleteAll] *)
Definition deleteAll (this : PurgeManager) : Acting unit :=
  do! perform (DeleteAll (_commonTempFolderRecycler this)) in
  perform (DeleteAll (_rushUserFolderRecycler this)).

(** [get commonTempFolderRecycler] *)
Definition commonTempFolderRecycler (this : PurgeManager) : AsyncRecycler :=
  _commonTempFolderRecycler this.

(** [purgeNormal] *)
Definition purgeNormal (env : Environment) (this : PurgeManager) : Acting unit :=
  do! perform (ConsoleLog
        ("Purging " +:+ commonTempFolder (_rushConfiguration this))) in
  let! membersToExclude :=
    _getMembersToExclude env (commonTempFolder (_rushConfiguration this)) true in
  perform (MoveAllItemsInFolder (_commonTempFolderRecycler this)
             (commonTempFolder (_rushConfiguration this)) membersToExclude).

(** [purgeUnsafe] *)
Definition purgeUnsafe (env : Environment) (this : PurgeManager) : Acting unit :=
  do! purgeNormal env this in
  do! perform (ConsoleLog ("Purging " +:+ path (_rushGlobalFolder this))) in
  let! nodeSpecificMembersToExclude :=
    _getMembersToExclude env (nodeSpecificPath (_rushGlobalFolder this)) true in
  do! perform (MoveAllItemsInFolder (_rushUserFolderRecycler this)
                 (nodeSpecificPath (_rushGlobalFolder this))
                 nodeSpecificMembersToExclude) in
  let! globalMembersToExclude :=
    _getMembersToExclude env (path (_rushGlobalFolder this)) false in
  perform (MoveAllItemsInFolder (_rushUserFolderRecycler this)
             (path (_rushGlobalFolder this)) globalMembersToExclude).

(** The [MoveAllItemsInFolder] actions among [actions], in order. *)
Definition isMove (action : Action) : bool :=
  match action with
  | MoveAllItemsInFolder _ _ _ => true
  | _ => false
  end.

Definition moves (actions : list Action) : list Action :=
  filter (fun action => Is_true (isMove action)) actions.

(** [NoSeparator text]: no character of [text] is a path separator. *)
Definition NoSeparator (text : string) : Prop :=
  Forall (fun c => isPathSeparator c = false) (list_ascii_of_string text).

(** [LeadingPiece piece text]: [piece] has no separator, and [text] is
    [piece] alone or [piece], a separator and a tail. *)
Definition LeadingPiece (piece text : string) : Prop :=
  NoSeparator piece
  /\ (text = piece
      \/ exists separator tail,
           isPathSeparator separator = true
           /\ text = piece +:+ String separator tail).

(** ** An environment for the examples

    Rush runs from [/home/user/.rush/node-v4.5.6/rush-1.2.3/lib].  The
    stand-in for [path.relative] drops the folder and the separator
    after it from a path that lies inside the folder, is empty for the
    folder itself, and answers [..] for a path elsewhere. *)
Module Example.

Definition relative (from to : string) : string :=
  if String.eqb from to then EmptyString
  else if String.prefix (from +:+ "/") to
  then String.substring (S (String.length from))
         (String.length to - S (String.length from)) to
  else "..".

Definition isAbsolute (text : string) : bool := String.prefix "/" text.

Definition env : Environment :=
  {| path_join := fun folder member => folder +:+ "/" +:+ member;
     path_resolve := fun folder => folder;
     path_relative := relative;
     path_isAbsolute := isAbsolute;
     __dirname := "/home/user/.rush/node-v4.5.6/rush-1.2.3/lib";
     colors_yellow := fun text => text;
     rushRecyclerFolderName := "rush-recycler" |}.

Definition rushConfiguration : RushConfiguration :=
  {| commonTempFolder := "/repo/common/temp" |}.

Definition rushGlobalFolder : RushGlobalFolder :=
  {| path := "/home/user/.rush";
     nodeSpecificPath := "/home/user/.rush/node-v4.5.6" |}.

Definition purgeManager : PurgeManager :=
  constructor env rushConfiguration rushGlobalFolder.

End Example.

End Purge.

(** * Properties *)

(** ** Scenarios of the specification, evaluated *)

Example scenario_member_of_class :
  resolve Widgets.table Widgets.workingPackage
    (Widgets.local [Widgets.plain "Button"; Widgets.plain "onClick"])
  = inl Widgets.onClick.
Proof. vm_compute. reflexivity. Qed.

Example scenario_merged_declaration :
  resolve Widgets.table Widgets.workingPackage
    (Widgets.local [Widgets.plain "Shape"])
  = inr (AmbiguousReference "Shape")
  /\ resolve Widgets.table Widgets.workingPackage
       (Widgets.local [Widgets.selected "Shape" "class"])
     = inl Widgets.ShapeClass.
Proof. split; vm_compute; reflexivity. Qed.

Example scenario_no_enum :
  resolve Widgets.table Widgets.workingPackage
    (Widgets.local [Widgets.selected "Shape" "enum"])
  = inr (NoDeclarationForSelector "Shape" "enum").
Proof. vm_compute. reflexivity. Qed.

Example scenario_reexport :
  resolve Widgets.table Widgets.workingPackage
    (Widgets.local [Widgets.plain "Legacy"])
  = inr UnsupportedReexport.
Proof. vm_compute. reflexivity. Qed.

(** ** The switch and the table of recognized selectors agree *)

Lemma selectorSyntaxKind_Some (selectorName : string) (kind : ts.SyntaxKind) :
  selectorSyntaxKind selectorName = Some kind <->
  (selectorName, kind) ∈ recognizedKinds.
Proof.
  unfold selectorSyntaxKind, recognizedKinds.
  rewrite !elem_of_cons, elem_of_nil.
  repeat case_decide; subst; split; intros Hk;
    repeat match goal with
           | Hd : _ \/ _ |- _ => destruct Hd
           | He : (_, _) = (_, _) |- _ => inversion He; clear He; subst
           | He : Some _ = Some _ |- _ => inversion He; clear He; subst
           end;
    try done; tauto.
Qed.

Lemma selectorSyntaxKind_None (selectorName : string) :
  selectorSyntaxKind selectorName = None <->
  selectorName ∉ recognizedKinds.*1.
Proof.
  unfold selectorSyntaxKind, recognizedKinds; cbn [fmap list_fmap fst].
  rewrite !not_elem_of_cons.
  repeat case_decide; subst; split; intros Hk; try done; try tauto.
  repeat split; try done. apply not_elem_of_nil.
Qed.

(** ** The narrowing rule ([_selectDeclaration]) *)
Section Narrowing.

Variable memberReference : DocMemberReference.t.
Variable astSymbolName : string.

Implicit Types astDeclarations : list AstDeclaration.

(** *** Without a selector *)

Lemma selectDeclaration_unselected astDeclarations :
  DocMemberReference.selector memberReference = None ->
  _selectDeclaration astDeclarations memberReference astSymbolName =
  match astDeclarations with
  | [only] => inl only
  | _ => inr (AmbiguousReference astSymbolName)
  end.
Proof. intros Hsel. unfold _selectDeclaration. by rewrite Hsel. Qed.

(** C1. Narrowing a candidate list without a selector: a list of
    exactly one declaration yields that declaration; a list of more
    than one yields the AmbiguousReference failure, and so no node at
    all. *)
Theorem selectDeclaration_no_selector astDeclarations :
  DocMemberReference.selector memberReference = None ->
  (forall only, astDeclarations = [only] ->
     _selectDeclaration astDeclarations memberReference astSymbolName
     = inl only)
  /\ (1 < length astDeclarations ->
      _selectDeclaration astDeclarations memberReference astSymbolName
      = inr (AmbiguousReference astSymbolName)
      /\ forall node,
           _selectDeclaration astDeclarations memberReference astSymbolName
           <> inl node).
Proof.
  intros Hsel. rewrite (selectDeclaration_unselected _ Hsel). split.
  - by intros only ->.
  - destruct astDeclarations as [|first [|second others]]; cbn; [lia|lia|done].
Qed.

(** C9. Narrowing the empty candidate list without a selector returns
    the AmbiguousReference failure, whose reason says that the name has
    more than one declaration; it returns no node. *)
Theorem selectDeclaration_empty_no_selector :
  DocMemberReference.selector memberReference = None ->
  _selectDeclaration [] memberReference astSymbolName
  = inr (AmbiguousReference astSymbolName)
  /\ reason (AmbiguousReference astSymbolName)
     = "The reference is ambiguous because " +:+ quoted astSymbolName +:+
       " has more than one declaration; you need to add a TSDoc member reference selector".
Proof.
  intros Hsel. by rewrite (selectDeclaration_unselected _ Hsel).
Qed.

(** *** With a system selector *)

Variable selector : DocMemberSelector.t.
Hypothesis Hselector :
  DocMemberReference.selector memberReference = Some selector.
Hypothesis Hsystem : DocMemberSelector.selectorKind selector = System.

Lemma selectDeclaration_system astDeclarations :
  _selectDeclaration astDeclarations memberReference astSymbolName =
  match selectorSyntaxKind (DocMemberSelector.selector selector) with
  | None => inr (UnsupportedSelectorValue (DocMemberSelector.selector selector))
  | Some kind =>
    match filter (fun x => declaration_kind x = kind) astDeclarations with
    | [] => inr (NoDeclarationForSelector astSymbolName
                   (DocMemberSelector.selector selector))
    | [only] => inl only
    | _ :: _ :: _ => inr (AmbiguousSelectorMatch astSymbolName
                            (DocMemberSelector.selector selector))
    end
  end.
Proof.
  unfold _selectDeclaration. rewrite Hselector; cbn zeta.
  case_decide as Hne; [by destruct Hne|done].
Qed.

(** C2. Narrowing with a recognized system selector filters the
    candidates to those whose declaration kind is the kind of the
    selector's tag: no match is NoDeclarationForSelector, more than one
    match is AmbiguousSelectorMatch, exactly one match is returned. *)
Theorem selectDeclaration_kind_selector astDeclarations kind :
  (DocMemberSelector.selector selector, kind) ∈ recognizedKinds ->
  let matches := filter (fun x => declaration_kind x = kind) astDeclarations in
  (matches = [] ->
     _selectDeclaration astDeclarations memberReference astSymbolName
     = inr (NoDeclarationForSelector astSymbolName
              (DocMemberSelector.selector selector)))
  /\ (1 < length matches ->
      _selectDeclaration astDeclarations memberReference astSymbolName
      = inr (AmbiguousSelectorMatch astSymbolName
               (DocMemberSelector.selector selector)))
  /\ (forall only, matches = [only] ->
      _selectDeclaration astDeclarations memberReference astSymbolName
      = inl only).
Proof.
  intros Hkind%selectorSyntaxKind_Some matches.
  rewrite selectDeclaration_system, Hkind. fold matches.
  destruct matches as [|first [|second others]]; cbn;
    repeat split; try done; try lia.
  by intros only [= ->].
Qed.

(** The narrowing step on a system selector whose tag is none of the
    seven recognized ones: UnsupportedSelectorValue, whatever the
    candidate list. *)
Lemma selectDeclaration_unknown_kind astDeclarations :
  DocMemberSelector.selector selector ∉ recognizedKinds.*1 ->
  _selectDeclaration astDeclarations memberReference astSymbolName
  = inr (UnsupportedSelectorValue (DocMemberSelector.selector selector)).
Proof.
  intros Hkind%selectorSyntaxKind_None.
  by rewrite selectDeclaration_system, Hkind.
Qed.

End Narrowing.

(** ** The descent loop *)

(** The loop over [first ++ later] is the loop over [first] followed,
    when that succeeds, by the loop over [later] from the node reached:
    a failure in [first] is returned whatever [later] holds. *)
Lemma descend_app (currentDeclaration : AstDeclaration)
  (first later : list DocMemberReference.t) :
  descend currentDeclaration (first ++ later) =
  let? reached := descend currentDeclaration first in descend reached later.
Proof.
  revert currentDeclaration.
  induction first as [|memberReference first IH]; intros currentDeclaration.
  - reflexivity.
  - cbn [app descend].
    destruct (descendStep currentDeclaration memberReference) as [selected|failure];
      cbn [orReturn]; [apply IH|reflexivity].
Qed.

(** One step of the loop on a segment with a plain name. *)
Lemma descendStep_plain (currentDeclaration : AstDeclaration)
  (memberReference : DocMemberReference.t) (memberName : string) :
  DocMemberReference.memberSymbol memberReference = None ->
  DocMemberReference.memberIdentifier memberReference
  = Some (DocMemberIdentifier.mk memberName) ->
  descendStep currentDeclaration memberReference =
  match findChildrenWithName currentDeclaration memberName with
  | [] => inr (NoMatchingMember memberName)
  | matchingChildren =>
    _selectDeclaration matchingChildren memberReference memberName
  end.
Proof.
  intros Hsymbol Hidentifier.
  unfold descendStep, _getMemberReferenceIdentifier.
  rewrite Hsymbol, Hidentifier; cbn.
  by destruct (findChildrenWithName currentDeclaration memberName).
Qed.

(** A declaration that narrowing returns is one of the candidates. *)
Lemma selectDeclaration_elem_of (astDeclarations : list AstDeclaration)
  (memberReference : DocMemberReference.t) (astSymbolName : string)
  (selected : AstDeclaration) :
  _selectDeclaration astDeclarations memberReference astSymbolName = inl selected ->
  selected ∈ astDeclarations.
Proof.
  unfold _selectDeclaration.
  destruct (DocMemberReference.selector memberReference) as [selector|].
  - cbn zeta. case_decide; [done|].
    destruct (selectorSyntaxKind _) as [kind|]; [|done].
    destruct (filter _ astDeclarations) as [|first [|second others]] eqn:Hmatches;
      [done| |done].
    intros [= <-].
    assert (first ∈ filter (fun x => declaration_kind x = kind) astDeclarations)
      as Hin by (rewrite Hmatches; apply list_elem_of_here).
    by apply list_elem_of_filter in Hin as [_ ?].
  - destruct astDeclarations as [|first [|second others]]; [done| |done].
    intros [= <-]. apply list_elem_of_here.
Qed.

(** A successful step lands on a child of the current declaration that
    carries the segment's name. *)
Lemma descendStep_child (currentDeclaration selected : AstDeclaration)
  (memberReference : DocMemberReference.t) :
  descendStep currentDeclaration memberReference = inl selected ->
  exists memberName,
    _getMemberReferenceIdentifier memberReference = inl memberName
    /\ selected ∈ children currentDeclaration
    /\ astSymbol_localName selected = memberName.
Proof.
  unfold descendStep.
  destruct (_getMemberReferenceIdentifier memberReference) as [memberName|];
    cbn [orReturn]; [|done].
  destruct (findChildrenWithName currentDeclaration memberName)
    as [|first others] eqn:Hchildren; [done|].
  intros Hin%selectDeclaration_elem_of. rewrite <- Hchildren in Hin.
  apply list_elem_of_filter in Hin as [Hname Hin]. by exists memberName.
Qed.

(** ** [resolve] *)
Section Resolve.

Variable astSymbolTable : AstSymbolTable.
Variable workingPackage : WorkingPackage.
Variable packageName importPath : option string.

Local Abbreviation reference :=
  (DocDeclarationReference.mk packageName importPath).

(** Resolution of [prefix ++ later], for a non-empty [prefix]: resolve
    [prefix], then run the loop over [later] from the node reached. *)
Lemma resolve_app (rootMemberReference : DocMemberReference.t)
  (prefix later : list DocMemberReference.t) :
  resolve astSymbolTable workingPackage
    (reference (rootMemberReference :: prefix ++ later)) =
  let? reached := resolve astSymbolTable workingPackage
                    (reference (rootMemberReference :: prefix)) in
  descend reached later.
Proof.
  unfold resolve; cbn.
  destruct (isExternalPackage workingPackage packageName); [done|].
  destruct (truthy importPath); [done|].
  destruct (_getMemberReferenceIdentifier rootMemberReference) as [exportName|];
    cbn [orReturn]; [|done].
  destruct (tryGetExportOfAstModule _ _ _) as [[localName astDeclarations|]|];
    [|done|done].
  destruct (_selectDeclaration astDeclarations rootMemberReference localName);
    cbn [orReturn]; [apply descend_app|done].
Qed.

(** A reference that resolves has at least one segment. *)
Lemma resolve_inl_cons (segments : list DocMemberReference.t)
  (resolved : AstDeclaration) :
  resolve astSymbolTable workingPackage (reference segments) = inl resolved ->
  exists rootMemberReference rest, segments = rootMemberReference :: rest.
Proof.
  destruct segments as [|rootMemberReference rest]; [|by eauto].
  unfold resolve; cbn. by repeat case_match.
Qed.

(** Resolution continues from a resolved prefix. *)
Lemma resolve_continue (prefix later : list DocMemberReference.t)
  (currentDeclaration : AstDeclaration) :
  resolve astSymbolTable workingPackage (reference prefix)
  = inl currentDeclaration ->
  resolve astSymbolTable workingPackage (reference (prefix ++ later))
  = descend currentDeclaration later.
Proof.
  intros Hprefix.
  destruct (resolve_inl_cons _ _ Hprefix) as (rootMemberReference & rest & ->).
  cbn [app]. by rewrite resolve_app, Hprefix.
Qed.

(** The two qualifier checks, when they pass. *)
Lemma isExternalPackage_false :
  (forall declared, packageName = Some declared -> declared = name workingPackage) ->
  isExternalPackage workingPackage packageName = false.
Proof.
  intros Hsame. destruct packageName as [declared|]; [|done].
  cbn. rewrite (Hsame declared eq_refl). by apply bool_decide_eq_false_2; intros [].
Qed.

Lemma truthy_false :
  (forall path, importPath = Some path -> path = EmptyString) ->
  truthy importPath = false.
Proof.
  intros Hempty. destruct importPath as [path|]; [|done].
  by rewrite (Hempty path eq_refl).
Qed.

(** The first failing step ends resolution: a failure on a non-empty
    prefix of the segments is the result for every extension. *)
Lemma resolve_failure_prefix (rootMemberReference : DocMemberReference.t)
  (prefix later : list DocMemberReference.t) (failure : ResolverFailure) :
  resolve astSymbolTable workingPackage
    (reference (rootMemberReference :: prefix)) = inr failure ->
  resolve astSymbolTable workingPackage
    (reference (rootMemberReference :: prefix ++ later)) = inr failure.
Proof. intros Hfailure. by rewrite resolve_app, Hfailure. Qed.

(** A failure of the narrowing rule at the root segment is the result of
    [resolve]. *)
Lemma resolve_root_narrowing_failure (rootMemberReference : DocMemberReference.t)
  (rest : list DocMemberReference.t) (exportName localName : string)
  (astDeclarations : list AstDeclaration) (failure : ResolverFailure) :
  (forall declared, packageName = Some declared -> declared = name workingPackage) ->
  (forall path, importPath = Some path -> path = EmptyString) ->
  _getMemberReferenceIdentifier rootMemberReference = inl exportName ->
  tryGetExportOfAstModule astSymbolTable exportName
    (fetchAstModuleFromWorkingPackage astSymbolTable
       (entryPointSourceFile workingPackage))
  = Some (AstSymbol localName astDeclarations) ->
  _selectDeclaration astDeclarations rootMemberReference localName = inr failure ->
  resolve astSymbolTable workingPackage (reference (rootMemberReference :: rest))
  = inr failure.
Proof.
  intros Hsame Hempty Hname Hexport Hnarrow. unfold resolve; cbn.
  by rewrite (isExternalPackage_false Hsame), (truthy_false Hempty), Hname;
    cbn [orReturn]; rewrite Hexport, Hnarrow.
Qed.

(** A failure of the narrowing rule during descent is the result of
    [resolve]. *)
Lemma resolve_descent_narrowing_failure (prefix later : list DocMemberReference.t)
  (memberReference : DocMemberReference.t)
  (currentDeclaration : AstDeclaration) (memberName : string)
  (failure : ResolverFailure) :
  resolve astSymbolTable workingPackage (reference prefix)
  = inl currentDeclaration ->
  _getMemberReferenceIdentifier memberReference = inl memberName ->
  findChildrenWithName currentDeclaration memberName <> [] ->
  _selectDeclaration (findChildrenWithName currentDeclaration memberName)
    memberReference memberName = inr failure ->
  resolve astSymbolTable workingPackage
    (reference (prefix ++ memberReference :: later)) = inr failure.
Proof.
  intros Hprefix Hname Hchildren Hnarrow.
  rewrite (resolve_continue _ _ _ Hprefix). cbn [descend].
  unfold descendStep. rewrite Hname; cbn [orReturn].
  destruct (findChildrenWithName currentDeclaration memberName); [done|].
  by rewrite Hnarrow.
Qed.

(** *** The qualifier checks *)

(** C4. A reference that declares a package name other than the working
    package's is refused with UnsupportedExternalPackage, whatever its
    import path, its segments and the symbol table: the check comes
    first. *)
Theorem resolve_external_package (segments : list DocMemberReference.t)
  (declared : string) :
  packageName = Some declared ->
  declared <> name workingPackage ->
  resolve astSymbolTable workingPackage (reference segments)
  = inr UnsupportedExternalPackage.
Proof.
  intros -> Hother. unfold resolve; cbn.
  by rewrite bool_decide_eq_true_2.
Qed.

(** C5, as amended. A reference that declares a non-empty import path,
    and whose package name, if declared, is the working package's, is
    refused with UnsupportedImportPath. *)
Theorem resolve_import_path (segments : list DocMemberReference.t)
  (path : string) :
  importPath = Some path ->
  path <> EmptyString ->
  (forall declared, packageName = Some declared -> declared = name workingPackage) ->
  resolve astSymbolTable workingPackage (reference segments)
  = inr UnsupportedImportPath.
Proof.
  intros -> Hpath Hsame. unfold resolve; cbn [DocDeclarationReference.packageName
    DocDeclarationReference.importPath].
  rewrite (isExternalPackage_false Hsame).
  by destruct path.
Qed.

(** *** The root segment *)

(** C8. When the qualifier checks pass and the first segment carries a
    member symbol, resolution fails with UnsupportedSymbolSelector for
    every symbol table, before any export is looked up. *)
Theorem resolve_symbol_keyed_root (rootMemberReference : DocMemberReference.t)
  (rest : list DocMemberReference.t) (memberSymbol : DocMemberSymbol.t) :
  (forall declared, packageName = Some declared -> declared = name workingPackage) ->
  (forall path, importPath = Some path -> path = EmptyString) ->
  DocMemberReference.memberSymbol rootMemberReference = Some memberSymbol ->
  resolve astSymbolTable workingPackage (reference (rootMemberReference :: rest))
  = inr UnsupportedSymbolSelector.
Proof.
  intros Hsame Hempty Hsymbol. unfold resolve; cbn.
  rewrite (isExternalPackage_false Hsame), (truthy_false Hempty).
  unfold _getMemberReferenceIdentifier. by rewrite Hsymbol.
Qed.

(** *** Descent *)

(** C6. During descent, at a segment with a plain name reached with
    current node [currentDeclaration], the candidates are the children of
    that node whose identifier equals the name; when no child has that
    identifier, resolution fails with NoMatchingMember naming it,
    whatever segments follow. *)
Theorem resolve_no_matching_member (prefix later : list DocMemberReference.t)
  (memberReference : DocMemberReference.t)
  (currentDeclaration : AstDeclaration) (memberName : string) :
  resolve astSymbolTable workingPackage (reference prefix)
  = inl currentDeclaration ->
  DocMemberReference.memberSymbol memberReference = None ->
  DocMemberReference.memberIdentifier memberReference
  = Some (DocMemberIdentifier.mk memberName) ->
  let matchingChildren :=
    filter (fun child => astSymbol_localName child = memberName)
      (children currentDeclaration) in
  ((forall child, child ∈ children currentDeclaration ->
      astSymbol_localName child <> memberName) ->
   resolve astSymbolTable workingPackage
     (reference (prefix ++ memberReference :: later))
   = inr (NoMatchingMember memberName))
  /\ (matchingChildren <> [] ->
      resolve astSymbolTable workingPackage
        (reference (prefix ++ memberReference :: later))
      = let? selectedDeclaration :=
          _selectDeclaration matchingChildren memberReference memberName in
        descend selectedDeclaration later).
Proof.
  intros Hprefix Hsymbol Hidentifier matchingChildren.
  rewrite (resolve_continue _ _ _ Hprefix). cbn [descend].
  rewrite (descendStep_plain _ _ _ Hsymbol Hidentifier).
  unfold findChildrenWithName. fold matchingChildren. split.
  - intros Hnone.
    destruct matchingChildren as [|child others] eqn:Hmatching; [done|].
    assert (child ∈ matchingChildren) as Hin
      by (rewrite Hmatching; apply list_elem_of_here).
    apply list_elem_of_filter in Hin as [Hname Hin].
    by destruct (Hnone child Hin).
  - by destruct matchingChildren.
Qed.

(** C7. Segment monotonicity: when [a, b, c] resolves, so does [a, b],
    and [c] names a child of the node that [a, b] resolves to: the
    result is a child of that node carrying [c]'s identifier. *)
Theorem resolve_segment_monotonicity (a b c : DocMemberReference.t)
  (resolved : AstDeclaration) :
  resolve astSymbolTable workingPackage (reference [a; b; c]) = inl resolved ->
  exists parent,
    resolve astSymbolTable workingPackage (reference [a; b]) = inl parent
    /\ exists memberName,
         DocMemberReference.memberIdentifier c
         = Some (DocMemberIdentifier.mk memberName)
         /\ resolved ∈ children parent
         /\ astSymbol_localName resolved = memberName.
Proof.
  change [a; b; c] with (a :: [b] ++ [c]). rewrite resolve_app.
  destruct (resolve astSymbolTable workingPackage (reference [a; b]))
    as [parent|failure]; cbn [orReturn descend]; [|done].
  destruct (descendStep parent c) as [selected|] eqn:Hstep;
    cbn [orReturn]; [|done].
  intros [= ->]. exists parent; split; [done|].
  destruct (descendStep_child _ _ _ Hstep) as (memberName & Hname & Hin & Heq).
  exists memberName; repeat split; try done.
  unfold _getMemberReferenceIdentifier in Hname.
  destruct (DocMemberReference.memberSymbol c); [done|].
  destruct (DocMemberReference.memberIdentifier c) as [[identifier]|]; [|done].
  by injection Hname as ->.
Qed.

(** C10, as amended. A segment with neither a member symbol nor a member
    identifier, once resolution reaches it (it is the first segment and
    the qualifier checks pass, or the segments before it resolve to a
    node), makes resolution fail with the reason text of the root
    segment, at any position and whatever segments follow. *)
Theorem resolve_missing_identifier (prefix later : list DocMemberReference.t)
  (memberReference : DocMemberReference.t) :
  DocMemberReference.memberSymbol memberReference = None ->
  DocMemberReference.memberIdentifier memberReference = None ->
  (prefix = []
   /\ (forall declared, packageName = Some declared ->
                        declared = name workingPackage)
   /\ (forall path, importPath = Some path -> path = EmptyString))
  \/ (exists currentDeclaration,
        resolve astSymbolTable workingPackage (reference prefix)
        = inl currentDeclaration) ->
  exists failure,
    resolve astSymbolTable workingPackage
      (reference (prefix ++ memberReference :: later)) = inr failure
    /\ reason failure
       = "The member identifier is missing in the root member reference".
Proof.
  intros Hsymbol Hidentifier Hreached.
  assert (_getMemberReferenceIdentifier memberReference
          = inr MissingMemberIdentifier) as Hmissing.
  { unfold _getMemberReferenceIdentifier. by rewrite Hsymbol, Hidentifier. }
  exists MissingMemberIdentifier; split; [|done].
  destruct Hreached as [(-> & Hsame & Hempty)|[currentDeclaration Hprefix]].
  - unfold resolve; cbn.
    by rewrite (isExternalPackage_false Hsame), (truthy_false Hempty), Hmissing.
  - rewrite (resolve_continue _ _ _ Hprefix). cbn [descend].
    unfold descendStep. by rewrite Hmissing.
Qed.

(** C3, as amended. A segment with a plain identifier and a system
    selector whose tag is none of the seven recognized ones, once
    resolution reaches its narrowing (it is the first segment, the
    qualifier checks pass and its identifier is bound to a local entity;
    or the segments before it resolve to a node with at least one child
    carrying its identifier), makes resolution fail with
    UnsupportedSelectorValue naming the tag, however many candidate
    declarations share the identifier and whatever segments follow. *)
Theorem resolve_unknown_kind (prefix later : list DocMemberReference.t)
  (memberReference : DocMemberReference.t) (selector : DocMemberSelector.t)
  (memberName : string) :
  DocMemberReference.memberSymbol memberReference = None ->
  DocMemberReference.memberIdentifier memberReference
  = Some (DocMemberIdentifier.mk memberName) ->
  DocMemberReference.selector memberReference = Some selector ->
  DocMemberSelector.selectorKind selector = System ->
  DocMemberSelector.selector selector ∉ recognizedKinds.*1 ->
  (prefix = []
   /\ (forall declared, packageName = Some declared ->
                        declared = name workingPackage)
   /\ (forall path, importPath = Some path -> path = EmptyString)
   /\ exists localName astDeclarations,
        tryGetExportOfAstModule astSymbolTable memberName
          (fetchAstModuleFromWorkingPackage astSymbolTable
             (entryPointSourceFile workingPackage))
        = Some (AstSymbol localName astDeclarations))
  \/ (exists currentDeclaration child,
        resolve astSymbolTable workingPackage (reference prefix)
        = inl currentDeclaration
        /\ child ∈ children currentDeclaration
        /\ astSymbol_localName child = memberName) ->
  resolve astSymbolTable workingPackage
    (reference (prefix ++ memberReference :: later))
  = inr (UnsupportedSelectorValue (DocMemberSelector.selector selector)).
Proof.
  intros Hsymbol Hidentifier Hselector Hsystem Hunknown Hreached.
  assert (_getMemberReferenceIdentifier memberReference = inl memberName)
    as Hname.
  { unfold _getMemberReferenceIdentifier. by rewrite Hsymbol, Hidentifier. }
  destruct Hreached
    as [(-> & Hsame & Hempty & localName & astDeclarations & Hexport)
       |(currentDeclaration & child & Hprefix & Hchild & Hchildname)].
  - cbn [app].
    apply (resolve_root_narrowing_failure _ _ _ _ _ _ Hsame Hempty Hname Hexport).
    by apply (selectDeclaration_unknown_kind _ _ _ Hselector Hsystem).
  - apply (resolve_descent_narrowing_failure _ _ _ _ _ _ Hprefix Hname).
    + intros Hnone.
      assert (child ∈ findChildrenWithName currentDeclaration memberName)
        as Hin by (by apply list_elem_of_filter).
      rewrite Hnone in Hin. by apply elem_of_nil in Hin.
    + by apply (selectDeclaration_unknown_kind _ _ _ Hselector Hsystem).
Qed.

End Resolve.

(** * The theorems at concrete inputs *)
Section Instances.

Import Widgets.

Lemma selectDeclaration_no_selector_witness :
  _selectDeclaration [Button] (plain "Button") "Button" = inl Button
  /\ _selectDeclaration [ShapeInterface; ShapeClass] (plain "Shape") "Shape"
     = inr (AmbiguousReference "Shape").
Proof.
  split.
  - apply (proj1 (selectDeclaration_no_selector
                    (plain "Button") "Button" [Button] eq_refl)).
    reflexivity.
  - apply (proj2 (selectDeclaration_no_selector
                    (plain "Shape") "Shape" [ShapeInterface; ShapeClass] eq_refl)).
    simpl. lia.
Defined.

Lemma selectDeclaration_empty_no_selector_witness :
  _selectDeclaration [] (plain "Ghost") "Ghost"
  = inr (AmbiguousReference "Ghost").
Proof.
  apply (proj1 (selectDeclaration_empty_no_selector
                  (plain "Ghost") "Ghost" eq_refl)).
Defined.

Lemma selectDeclaration_kind_selector_witness :
  _selectDeclaration [ShapeInterface; ShapeClass] (selected "Shape" "class") "Shape"
  = inl ShapeClass
  /\ _selectDeclaration [ShapeInterface; ShapeClass] (selected "Shape" "enum") "Shape"
     = inr (NoDeclarationForSelector "Shape" "enum")
  /\ _selectDeclaration [resize1; resize2] (selected "resize" "function") "resize"
     = inr (NoDeclarationForSelector "resize" "function")
  /\ _selectDeclaration [ShapeClass; ShapeClass] (selected "Shape" "class") "Shape"
     = inr (AmbiguousSelectorMatch "Shape" "class").
Proof.
  split; [|split; [|split]].
  - refine (proj2 (proj2 (selectDeclaration_kind_selector
              (selected "Shape" "class") "Shape"
              (DocMemberSelector.mk "class" System) eq_refl eq_refl
              [ShapeInterface; ShapeClass] ts.ClassDeclaration _)) ShapeClass _).
    + vm_compute. left.
    + reflexivity.
  - refine (proj1 (selectDeclaration_kind_selector
              (selected "Shape" "enum") "Shape"
              (DocMemberSelector.mk "enum" System) eq_refl eq_refl
              [ShapeInterface; ShapeClass] ts.EnumDeclaration _) _).
    + vm_compute. right. left.
    + reflexivity.
  - refine (proj1 (selectDeclaration_kind_selector
              (selected "resize" "function") "resize"
              (DocMemberSelector.mk "function" System) eq_refl eq_refl
              [resize1; resize2] ts.FunctionDeclaration _) _).
    + vm_compute. right. right. left.
    + reflexivity.
  - refine (proj1 (proj2 (selectDeclaration_kind_selector
              (selected "Shape" "class") "Shape"
              (DocMemberSelector.mk "class" System) eq_refl eq_refl
              [ShapeClass; ShapeClass] ts.ClassDeclaration _)) _).
    + vm_compute. left.
    + simpl. lia.
Defined.

Lemma selectDeclaration_unknown_kind_witness :
  _selectDeclaration [ShapeInterface; ShapeClass] (selected "Shape" "struct") "Shape"
  = inr (UnsupportedSelectorValue "struct")
  /\ _selectDeclaration [] (selected "Shape" "struct") "Shape"
     = inr (UnsupportedSelectorValue "struct").
Proof.
  split.
  - refine (selectDeclaration_unknown_kind (selected "Shape" "struct") "Shape"
              (DocMemberSelector.mk "struct" System) eq_refl eq_refl
              [ShapeInterface; ShapeClass] _).
    refine (bool_decide_unpack _ _). vm_compute. exact I.
  - refine (selectDeclaration_unknown_kind (selected "Shape" "struct") "Shape"
              (DocMemberSelector.mk "struct" System) eq_refl eq_refl [] _).
    refine (bool_decide_unpack _ _). vm_compute. exact I.
Defined.

Lemma resolve_external_package_witness :
  resolve table workingPackage
    (DocDeclarationReference.mk (Some "other-pkg") (Some "./lib/button")
       [plain "Button"])
  = inr UnsupportedExternalPackage.
Proof.
  refine (resolve_external_package table workingPackage
            (Some "other-pkg") (Some "./lib/button") [plain "Button"]
            "other-pkg" eq_refl _).
  simpl. discriminate.
Defined.

Lemma resolve_import_path_witness :
  resolve table workingPackage
    (DocDeclarationReference.mk (Some "widgets") (Some "./lib/button")
       [plain "Button"])
  = inr UnsupportedImportPath.
Proof.
  refine (resolve_import_path table workingPackage
            (Some "widgets") (Some "./lib/button") [plain "Button"]
            "./lib/button" eq_refl _ _).
  - discriminate.
  - simpl. intros declared [= <-]. reflexivity.
Defined.

(** C5, the claim as stated, fails on an import path that is declared
    but empty: [if (declarationReference.importPath)] is false for the
    empty string, and resolution goes on to the export. *)
Lemma resolve_empty_import_path_counterexample :
  let declarationReference :=
    DocDeclarationReference.mk (Some "widgets") (Some EmptyString)
      [plain "Button"] in
  DocDeclarationReference.importPath declarationReference = Some EmptyString
  /\ DocDeclarationReference.packageName declarationReference
     = Some (name workingPackage)
  /\ resolve table workingPackage declarationReference = inl Button
  /\ resolve table workingPackage declarationReference
     <> inr UnsupportedImportPath.
Proof.
  cbn zeta. split; [reflexivity|]. split; [reflexivity|].
  assert (resolve table workingPackage
            (DocDeclarationReference.mk (Some "widgets") (Some EmptyString)
               [plain "Button"]) = inl Button) as Hresolved
    by (vm_compute; reflexivity).
  split; [exact Hresolved|]. rewrite Hresolved. discriminate.
Qed.

Lemma resolve_symbol_keyed_root_witness :
  resolve table workingPackage
    (local [symbolKeyed "Symbol.iterator"; plain "next"])
  = inr UnsupportedSymbolSelector.
Proof.
  refine (resolve_symbol_keyed_root table workingPackage None None
            (symbolKeyed "Symbol.iterator") [plain "next"]
            (DocMemberSymbol.mk "Symbol.iterator") _ _ eq_refl).
  - discriminate.
  - discriminate.
Defined.

Lemma resolve_no_matching_member_witness :
  resolve table workingPackage
    (local [plain "Layout"; plain "Grid"; plain "unpack"; plain "deeper"])
  = inr (NoMatchingMember "unpack").
Proof.
  refine (proj1 (resolve_no_matching_member table workingPackage None None
                   [plain "Layout"; plain "Grid"] [plain "deeper"]
                   (plain "unpack") Grid "unpack" _ eq_refl eq_refl) _).
  - vm_compute. reflexivity.
  - simpl. intros child Hchild.
    apply elem_of_cons in Hchild as [->|Hchild].
    + discriminate.
    + apply elem_of_nil in Hchild. destruct Hchild.
Defined.

Lemma resolve_segment_monotonicity_witness :
  exists parent,
    resolve table workingPackage (local [plain "Layout"; plain "Grid"])
    = inl parent
    /\ exists memberName,
         DocMemberReference.memberIdentifier (plain "pack")
         = Some (DocMemberIdentifier.mk memberName)
         /\ pack ∈ children parent
         /\ astSymbol_localName pack = memberName.
Proof.
  refine (resolve_segment_monotonicity table workingPackage None None
            (plain "Layout") (plain "Grid") (plain "pack") pack _).
  vm_compute. reflexivity.
Defined.

Lemma resolve_missing_identifier_witness :
  exists failure,
    resolve table workingPackage
      (local [plain "Layout"; plain "Grid"; anonymous; plain "deeper"])
    = inr failure
    /\ reason failure
       = "The member identifier is missing in the root member reference".
Proof.
  refine (resolve_missing_identifier table workingPackage None None
            [plain "Layout"; plain "Grid"] [plain "deeper"] anonymous
            eq_refl eq_refl _).
  right. exists Grid. vm_compute. reflexivity.
Defined.

(** C10, the claim as stated, fails when an earlier step fails: the
    anonymous segment below is never examined, because the segment
    before it names no export of the package. *)
Lemma resolve_missing_identifier_counterexample :
  let declarationReference := local [plain "Gadget"; anonymous] in
  DocMemberReference.memberSymbol anonymous = None
  /\ DocMemberReference.memberIdentifier anonymous = None
  /\ resolve table workingPackage declarationReference
     = inr (UnknownExport "widgets" "Gadget")
  /\ ~ exists failure,
        resolve table workingPackage declarationReference = inr failure
        /\ reason failure
           = "The member identifier is missing in the root member reference".
Proof.
  cbn zeta. split; [reflexivity|]. split; [reflexivity|].
  assert (resolve table workingPackage (local [plain "Gadget"; anonymous])
          = inr (UnknownExport "widgets" "Gadget")) as Hresolved
    by (vm_compute; reflexivity).
  split; [exact Hresolved|].
  rewrite Hresolved. intros (failure & [= <-] & Hreason).
  vm_compute in Hreason. discriminate.
Qed.

Lemma resolve_unknown_kind_witness :
  resolve table workingPackage
    (local [plain "Layout"; selected "Grid" "struct"; plain "pack"])
  = inr (UnsupportedSelectorValue "struct")
  /\ resolve table workingPackage (local [selected "Shape" "struct"])
     = inr (UnsupportedSelectorValue "struct").
Proof.
  split.
  - refine (resolve_unknown_kind table workingPackage None None
              [plain "Layout"] [plain "pack"] (selected "Grid" "struct")
              (DocMemberSelector.mk "struct" System) "Grid"
              eq_refl eq_refl eq_refl eq_refl _ _).
    + refine (bool_decide_unpack _ _). vm_compute. exact I.
    + right. exists Layout, Grid. split; [|split].
      * vm_compute. reflexivity.
      * simpl. left.
      * reflexivity.
  - refine (resolve_unknown_kind table workingPackage None None
              [] [] (selected "Shape" "struct")
              (DocMemberSelector.mk "struct" System) "Shape"
              eq_refl eq_refl eq_refl eq_refl _ _).
    + refine (bool_decide_unpack _ _). vm_compute. exact I.
    + left. split; [reflexivity|]. split; [discriminate|].
      split; [discriminate|].
      exists "Shape", [ShapeInterface; ShapeClass]. vm_compute. reflexivity.
Defined.

(** C3, the claim as stated, fails when the narrowing of the segment is
    not reached: the second segment below carries a system selector with
    the unrecognized tag [struct], but no child of [Button] carries its
    identifier, and the loop returns before the selector is read; at the
    root, an identifier that names no export does the same. *)
Lemma resolve_unknown_kind_counterexample :
  DocMemberReference.selector (selected "nothing" "struct")
  = Some (DocMemberSelector.mk "struct" System)
  /\ ("struct" ∉ recognizedKinds.*1)
  /\ resolve table workingPackage
       (local [plain "Button"; selected "nothing" "struct"])
     = inr (NoMatchingMember "nothing")
  /\ resolve table workingPackage
       (local [plain "Button"; selected "nothing" "struct"])
     <> inr (UnsupportedSelectorValue "struct")
  /\ resolve table workingPackage (local [selected "Gadget" "struct"])
     = inr (UnknownExport "widgets" "Gadget")
  /\ resolve table workingPackage (local [selected "Gadget" "struct"])
     <> inr (UnsupportedSelectorValue "struct").
Proof.
  split; [reflexivity|].
  split; [refine (bool_decide_unpack _ _); vm_compute; exact I|].
  assert (resolve table workingPackage
            (local [plain "Button"; selected "nothing" "struct"])
          = inr (NoMatchingMember "nothing")) as Hdescent
    by (vm_compute; reflexivity).
  assert (resolve table workingPackage (local [selected "Gadget" "struct"])
          = inr (UnknownExport "widgets" "Gadget")) as Hroot
    by (vm_compute; reflexivity).
  split; [exact Hdescent|]. split; [rewrite Hdescent; discriminate|].
  split; [exact Hroot|]. rewrite Hroot. discriminate.
Qed.

End Instances.

(** * Further properties of the resolver *)

(** ** Narrowing *)

(** X1. A selector of another family than the system one is refused with
    UnsupportedSelectorFamily before its tag is read: for every tag,
    recognized or not, and every candidate list. *)
Theorem selectDeclaration_unsupported_family
  (astDeclarations : list AstDeclaration)
  (memberReference : DocMemberReference.t) (astSymbolName : string)
  (selector : DocMemberSelector.t) :
  DocMemberReference.selector memberReference = Some selector ->
  DocMemberSelector.selectorKind selector <> System ->
  _selectDeclaration astDeclarations memberReference astSymbolName
  = inr (UnsupportedSelectorFamily (DocMemberSelector.selector selector)).
Proof.
  intros Hselector Hfamily. unfold _selectDeclaration.
  rewrite Hselector; cbn zeta. by case_decide.
Qed.

(** X2. Narrowing returns a node exactly when the candidates leave no
    choice: without a selector the node is the only candidate; with a
    selector, the selector is a system selector with a recognized tag and
    the node is the only candidate of the tag's kind.  In both cases the
    node is one of the candidates. *)
Theorem selectDeclaration_inl_iff
  (astDeclarations : list AstDeclaration)
  (memberReference : DocMemberReference.t) (astSymbolName : string)
  (selected : AstDeclaration) :
  (_selectDeclaration astDeclarations memberReference astSymbolName
   = inl selected
   <-> match DocMemberReference.selector memberReference with
       | None => astDeclarations = [selected]
       | Some selector =>
         DocMemberSelector.selectorKind selector = System
         /\ exists kind,
              (DocMemberSelector.selector selector, kind) ∈ recognizedKinds
              /\ filter (fun x => declaration_kind x = kind) astDeclarations
                 = [selected]
       end)
  /\ (_selectDeclaration astDeclarations memberReference astSymbolName
      = inl selected ->
      selected ∈ astDeclarations
      /\ forall selector kind,
           DocMemberReference.selector memberReference = Some selector ->
           (DocMemberSelector.selector selector, kind) ∈ recognizedKinds ->
           declaration_kind selected = kind).
Proof.
  split.
  - unfold _selectDeclaration.
    destruct (DocMemberReference.selector memberReference) as [selector|].
    + cbn zeta. case_decide as Hfamily.
      * split; [done|]. by intros [Hsystem _].
      * destruct (selectorSyntaxKind _) as [kind|] eqn:Hkind.
        -- apply selectorSyntaxKind_Some in Hkind.
           destruct (filter _ astDeclarations)
             as [|first [|second others]] eqn:Hmatches.
           ++ split; [done|]. intros (_ & kind' & Hkind' & Hmatches').
              apply selectorSyntaxKind_Some in Hkind, Hkind'.
              rewrite Hkind in Hkind'. injection Hkind' as <-.
              by rewrite Hmatches in Hmatches'.
           ++ split.
              ** intros [= <-]. split; [done|]. by exists kind.
              ** intros (_ & kind' & Hkind' & Hmatches').
                 apply selectorSyntaxKind_Some in Hkind, Hkind'.
                 rewrite Hkind in Hkind'. injection Hkind' as <-.
                 rewrite Hmatches in Hmatches'. by injection Hmatches' as ->.
           ++ split; [done|]. intros (_ & kind' & Hkind' & Hmatches').
              apply selectorSyntaxKind_Some in Hkind, Hkind'.
              rewrite Hkind in Hkind'. injection Hkind' as <-.
              by rewrite Hmatches in Hmatches'.
        -- split; [done|]. intros (_ & kind' & Hkind' & _).
           apply selectorSyntaxKind_Some in Hkind'. by rewrite Hkind in Hkind'.
    + destruct astDeclarations as [|first [|second others]]; split;
        try done; by intros [= ->].
  - intros Hselected. split; [by eapply selectDeclaration_elem_of|].
    intros selector kind Hselector Hkind%selectorSyntaxKind_Some.
    unfold _selectDeclaration in Hselected. rewrite Hselector in Hselected.
    cbn zeta in Hselected. case_decide; [done|]. rewrite Hkind in Hselected.
    destruct (filter _ astDeclarations) as [|first [|second others]] eqn:Hmatches;
      [done| |done].
    injection Hselected as <-.
    assert (first ∈ filter (fun x => declaration_kind x = kind) astDeclarations)
      as Hin by (rewrite Hmatches; apply list_elem_of_here).
    by apply list_elem_of_filter in Hin as [? _].
Qed.

(** X3. The outcome of narrowing does not depend on the order of the
    candidates: no rule of the narrowing step breaks a tie by position. *)
Theorem selectDeclaration_Permutation
  (astDeclarations astDeclarations' : list AstDeclaration)
  (memberReference : DocMemberReference.t) (astSymbolName : string) :
  astDeclarations ≡ₚ astDeclarations' ->
  _selectDeclaration astDeclarations memberReference astSymbolName
  = _selectDeclaration astDeclarations' memberReference astSymbolName.
Proof.
  intros Hperm. unfold _selectDeclaration.
  assert (forall l l' : list AstDeclaration, l ≡ₚ l' ->
            forall failure failure' : ResolverFailure,
            match l with
            | [] => inr failure
            | [only] => inl only
            | _ :: _ :: _ => inr failure'
            end
            = match l' return Resolved AstDeclaration with
              | [] => inr failure
              | [only] => inl only
              | _ :: _ :: _ => inr failure'
              end) as Hcases.
  { intros l l' Hl failure failure'.
    destruct l as [|first [|second others]].
    - by apply Permutation_nil_l in Hl as <-.
    - by apply Permutation_singleton_l in Hl as <-.
    - destruct l' as [|first' [|second' others']]; [| |done].
      + by apply Permutation_nil_r in Hl.
      + by apply Permutation_singleton_r in Hl. }
  destruct (DocMemberReference.selector memberReference) as [selector|].
  - cbn zeta. case_decide; [done|].
    destruct (selectorSyntaxKind _) as [kind|]; [|done].
    apply Hcases. by rewrite Hperm.
  - specialize (Hcases _ _ Hperm (AmbiguousReference astSymbolName)
                  (AmbiguousReference astSymbolName)).
    destruct astDeclarations as [|first [|second others]],
      astDeclarations' as [|first' [|second' others']]; done.
Qed.

(** X4. A selector that is not needed does no harm when it is right, and
    is an error when it is wrong: on a single candidate, a system
    selector with a recognized tag returns the candidate when the tag's
    kind is the candidate's, and fails with NoDeclarationForSelector
    otherwise. *)
Theorem selectDeclaration_single_candidate
  (only : AstDeclaration)
  (memberReference : DocMemberReference.t) (astSymbolName : string)
  (selector : DocMemberSelector.t) (kind : ts.SyntaxKind) :
  DocMemberReference.selector memberReference = Some selector ->
  DocMemberSelector.selectorKind selector = System ->
  (DocMemberSelector.selector selector, kind) ∈ recognizedKinds ->
  _selectDeclaration [only] memberReference astSymbolName
  = if decide (declaration_kind only = kind)
    then inl only
    else inr (NoDeclarationForSelector astSymbolName
                (DocMemberSelector.selector selector)).
Proof.
  intros Hselector Hsystem Hkind%selectorSyntaxKind_Some.
  rewrite (selectDeclaration_system _ _ _ Hselector Hsystem), Hkind.
  case_decide as Hsame.
  - by rewrite filter_cons_True.
  - by rewrite filter_cons_False.
Qed.

(** ** Segments and their identifiers *)

(** The identifier of a segment is computed exactly when the segment has
    no member symbol and has a member identifier. *)
Lemma getMemberReferenceIdentifier_inl (memberReference : DocMemberReference.t)
  (memberName : string) :
  _getMemberReferenceIdentifier memberReference = inl memberName <->
  DocMemberReference.memberSymbol memberReference = None
  /\ DocMemberReference.memberIdentifier memberReference
     = Some (DocMemberIdentifier.mk memberName).
Proof.
  unfold _getMemberReferenceIdentifier.
  destruct (DocMemberReference.memberSymbol memberReference);
    [by split; [|intros []]|].
  destruct (DocMemberReference.memberIdentifier memberReference)
    as [[identifier]|]; cbn; [|by split; [|intros []]].
  split; [by intros [= ->]|by intros [_ [= ->]]].
Qed.

(** A selector that narrowing accepts is a system selector with a
    recognized tag, and the node returned has the tag's kind. *)
Lemma selectDeclaration_inl_selector (astDeclarations : list AstDeclaration)
  (memberReference : DocMemberReference.t) (astSymbolName : string)
  (selected : AstDeclaration) (selector : DocMemberSelector.t) :
  _selectDeclaration astDeclarations memberReference astSymbolName = inl selected ->
  DocMemberReference.selector memberReference = Some selector ->
  DocMemberSelector.selectorKind selector = System
  /\ (DocMemberSelector.selector selector, declaration_kind selected)
     ∈ recognizedKinds.
Proof.
  unfold _selectDeclaration. intros Hselected Hselector.
  rewrite Hselector in Hselected. cbn zeta in Hselected.
  case_decide as Hfamily; [done|]. split; [done|].
  destruct (selectorSyntaxKind _) as [kind|] eqn:Hkind; [|done].
  destruct (filter _ astDeclarations) as [|first [|second others]] eqn:Hmatches;
    [done| |done].
  injection Hselected as <-.
  assert (first ∈ filter (fun x => declaration_kind x = kind) astDeclarations)
    as Hin by (rewrite Hmatches; apply list_elem_of_here).
  apply list_elem_of_filter in Hin as [-> _].
  by apply selectorSyntaxKind_Some.
Qed.

Lemma recognizedKinds_fst (selectorName : string) (kind : ts.SyntaxKind) :
  (selectorName, kind) ∈ recognizedKinds -> selectorName ∈ recognizedKinds.*1.
Proof. intros Hin. apply list_elem_of_fmap. by exists (selectorName, kind). Qed.

Lemma descendStep_Resolvable (currentDeclaration selected : AstDeclaration)
  (memberReference : DocMemberReference.t) :
  descendStep currentDeclaration memberReference = inl selected ->
  Resolvable memberReference.
Proof.
  unfold descendStep.
  destruct (_getMemberReferenceIdentifier memberReference) as [memberName|]
    eqn:Hname; cbn [orReturn]; [|done].
  apply getMemberReferenceIdentifier_inl in Hname as [Hsymbol Hidentifier].
  destruct (findChildrenWithName currentDeclaration memberName); [done|].
  intros Hselected. split; [done|]. split; [by rewrite Hidentifier|].
  intros selector Hselector.
  destruct (selectDeclaration_inl_selector _ _ _ _ _ Hselected Hselector)
    as [Hsystem Hkind].
  split; [done|]. by eapply recognizedKinds_fst.
Qed.

Lemma descend_Resolvable (currentDeclaration resolved : AstDeclaration)
  (rest : list DocMemberReference.t) :
  descend currentDeclaration rest = inl resolved ->
  Forall Resolvable rest.
Proof.
  revert currentDeclaration.
  induction rest as [|memberReference rest IH]; intros currentDeclaration;
    [by constructor|].
  cbn [descend].
  destruct (descendStep currentDeclaration memberReference) as [selected|]
    eqn:Hstep; cbn [orReturn]; [|done].
  intros Hrest. constructor; [by eapply descendStep_Resolvable|by eapply IH].
Qed.

(** A successful loop follows a path of children named by the segments. *)
Lemma descend_ChildPath (currentDeclaration resolved : AstDeclaration)
  (rest : list DocMemberReference.t) :
  descend currentDeclaration rest = inl resolved ->
  exists names,
    Forall2 (fun memberReference memberName =>
               DocMemberReference.memberIdentifier memberReference
               = Some (DocMemberIdentifier.mk memberName)) rest names
    /\ ChildPath currentDeclaration names resolved.
Proof.
  revert currentDeclaration.
  induction rest as [|memberReference rest IH]; intros currentDeclaration.
  - intros [= ->]. exists []. split; constructor.
  - cbn [descend].
    destruct (descendStep currentDeclaration memberReference) as [selected|]
      eqn:Hstep; cbn [orReturn]; [|done].
    intros (names & Hnames & Hpath)%IH.
    destruct (descendStep_child _ _ _ Hstep) as (memberName & Hname & Hin & Heq).
    apply getMemberReferenceIdentifier_inl in Hname as [_ Hidentifier].
    exists (memberName :: names). split; [by constructor|].
    by econstructor.
Qed.

(** Over plain segments the loop succeeds exactly along a path on which
    every name is carried by one child only. *)
Lemma descend_plain_UniquePath (currentDeclaration resolved : AstDeclaration)
  (names : list string) :
  descend currentDeclaration (plainSegment <$> names) = inl resolved <->
  UniquePath currentDeclaration names resolved.
Proof.
  revert currentDeclaration.
  induction names as [|memberName names IH]; intros currentDeclaration.
  - cbn. split; [intros [= ->]; constructor|by inversion 1].
  - cbn [fmap list_fmap descend].
    rewrite (descendStep_plain currentDeclaration (plainSegment memberName)
               memberName eq_refl eq_refl).
    destruct (findChildrenWithName currentDeclaration memberName)
      as [|first [|second others]] eqn:Hchildren; cbn.
    + split; [done|]. inversion 1; congruence.
    + rewrite IH. split; [by econstructor|].
      inversion 1; subst. congruence.
    + split; [done|]. inversion 1; congruence.
Qed.

(** The qualifier checks, read backwards. *)
Lemma isExternalPackage_false_inv (workingPackage : WorkingPackage)
  (packageName : option string) :
  isExternalPackage workingPackage packageName = false ->
  forall declared, packageName = Some declared -> declared = name workingPackage.
Proof.
  intros Hexternal declared ->. cbn in Hexternal.
  apply bool_decide_eq_false in Hexternal. by apply dec_stable.
Qed.

Lemma truthy_false_inv (importPath : option string) :
  truthy importPath = false ->
  forall path, importPath = Some path -> path = EmptyString.
Proof. intros Htruthy path ->. by destruct path. Qed.

(** ** [resolve]: the remaining failures *)
Section ResolveFailures.

Variable astSymbolTable : AstSymbolTable.
Variable workingPackage : WorkingPackage.
Variable packageName importPath : option string.

Local Abbreviation reference :=
  (DocDeclarationReference.mk packageName importPath).

Hypothesis Hpackage :
  forall declared, packageName = Some declared -> declared = name workingPackage.
Hypothesis Hpath :
  forall path, importPath = Some path -> path = EmptyString.

(** X5. A reference without segments, whose qualifier checks pass, is
    refused with the failure for package references, for every symbol
    table. *)
Theorem resolve_empty_reference :
  resolve astSymbolTable workingPackage (reference [])
  = inr EmptyReference
  /\ reason EmptyReference = "Package references are not supported".
Proof.
  split; [|done]. unfold resolve; cbn.
  by rewrite (isExternalPackage_false _ _ Hpackage), (truthy_false _ Hpath).
Qed.

(** X6. When the entry module of the working package has no export
    under the first segment's identifier, resolution fails with
    UnknownExport naming the package and the identifier, whatever the
    segment's selector and the later segments. *)
Theorem resolve_unknown_export (rootMemberReference : DocMemberReference.t)
  (rest : list DocMemberReference.t) (exportName : string) :
  DocMemberReference.memberSymbol rootMemberReference = None ->
  DocMemberReference.memberIdentifier rootMemberReference
  = Some (DocMemberIdentifier.mk exportName) ->
  tryGetExportOfAstModule astSymbolTable exportName
    (fetchAstModuleFromWorkingPackage astSymbolTable
       (entryPointSourceFile workingPackage)) = None ->
  resolve astSymbolTable workingPackage (reference (rootMemberReference :: rest))
  = inr (UnknownExport (name workingPackage) exportName).
Proof.
  intros Hsymbol Hidentifier Hexport. unfold resolve; cbn.
  rewrite (isExternalPackage_false _ _ Hpackage), (truthy_false _ Hpath).
  rewrite (proj2 (getMemberReferenceIdentifier_inl _ _) (conj Hsymbol Hidentifier)).
  cbn [orReturn]. by rewrite Hexport.
Qed.

(** X7. When the first segment's identifier is bound to an import,
    resolution fails with UnsupportedReexport, whatever the segment's
    selector and the later segments: the selector is not even
    validated. *)
Theorem resolve_reexport (rootMemberReference : DocMemberReference.t)
  (rest : list DocMemberReference.t) (exportName modulePath importedName : string) :
  DocMemberReference.memberSymbol rootMemberReference = None ->
  DocMemberReference.memberIdentifier rootMemberReference
  = Some (DocMemberIdentifier.mk exportName) ->
  tryGetExportOfAstModule astSymbolTable exportName
    (fetchAstModuleFromWorkingPackage astSymbolTable
       (entryPointSourceFile workingPackage))
  = Some (AstImport modulePath importedName) ->
  resolve astSymbolTable workingPackage (reference (rootMemberReference :: rest))
  = inr UnsupportedReexport.
Proof.
  intros Hsymbol Hidentifier Hexport. unfold resolve; cbn.
  rewrite (isExternalPackage_false _ _ Hpackage), (truthy_false _ Hpath).
  rewrite (proj2 (getMemberReferenceIdentifier_inl _ _) (conj Hsymbol Hidentifier)).
  cbn [orReturn]. by rewrite Hexport.
Qed.

(** X8. A single plain segment without a selector resolves to a node
    exactly when its identifier is bound to a local entity with that
    node as its only declaration. *)
Theorem resolve_single_plain_iff (exportName : string) (resolved : AstDeclaration) :
  resolve astSymbolTable workingPackage (reference [plainSegment exportName])
  = inl resolved
  <-> exists localName,
        tryGetExportOfAstModule astSymbolTable exportName
          (fetchAstModuleFromWorkingPackage astSymbolTable
             (entryPointSourceFile workingPackage))
        = Some (AstSymbol localName [resolved]).
Proof.
  unfold resolve; cbn.
  rewrite (isExternalPackage_false _ _ Hpackage), (truthy_false _ Hpath).
  destruct (tryGetExportOfAstModule _ _ _)
    as [[localName [|first [|second others]]|]|]; cbn.
  - split; [done|]. by intros [? [=]].
  - split; [intros [= ->]; by exists localName|]. by intros [? [= _ ->]].
  - split; [done|]. by intros [? [=]].
  - split; [done|]. by intros [? [=]].
  - split; [done|]. by intros [? [=]].
Qed.

End ResolveFailures.

(** ** [resolve]: prefixes, paths and what success implies *)
Section ResolveSuccess.

Variable astSymbolTable : AstSymbolTable.
Variable workingPackage : WorkingPackage.
Variable packageName importPath : option string.

Local Abbreviation reference :=
  (DocDeclarationReference.mk packageName importPath).

(** X9. In the loop, once the segments before it resolve to a node, a
    segment that carries a member symbol makes resolution fail with
    UnsupportedSymbolSelector, also when it carries an identifier that
    names a child, and whatever follows. *)
Theorem resolve_symbol_keyed_descent (prefix later : list DocMemberReference.t)
  (memberReference : DocMemberReference.t)
  (currentDeclaration : AstDeclaration) (memberSymbol : DocMemberSymbol.t) :
  resolve astSymbolTable workingPackage (reference prefix)
  = inl currentDeclaration ->
  DocMemberReference.memberSymbol memberReference = Some memberSymbol ->
  resolve astSymbolTable workingPackage
    (reference (prefix ++ memberReference :: later))
  = inr UnsupportedSymbolSelector.
Proof.
  intros Hprefix Hsymbol.
  rewrite (resolve_continue _ _ _ _ _ _ _ Hprefix). cbn [descend].
  unfold descendStep, _getMemberReferenceIdentifier. by rewrite Hsymbol.
Qed.

(** X10. Prefix closure: when a reference resolves, so does every
    non-empty prefix of its segments, and the result is what the loop
    yields over the remaining segments from the prefix's node. *)
Theorem resolve_prefix_closed (prefix later : list DocMemberReference.t)
  (resolved : AstDeclaration) :
  prefix <> [] ->
  resolve astSymbolTable workingPackage (reference (prefix ++ later))
  = inl resolved ->
  exists reached,
    resolve astSymbolTable workingPackage (reference prefix) = inl reached
    /\ descend reached later = inl resolved.
Proof.
  destruct prefix as [|rootMemberReference prefix]; [done|]. intros _.
  cbn [app]. rewrite resolve_app.
  destruct (resolve astSymbolTable workingPackage
              (reference (rootMemberReference :: prefix))) as [reached|];
    cbn [orReturn]; [|done].
  intros Hlater. by exists reached.
Qed.

(** X11. The first failure is final: when a non-empty prefix of the
    segments fails, every reference that extends it fails with the same
    failure, whatever the added segments are. *)
Theorem resolve_first_failure_final (prefix later : list DocMemberReference.t)
  (failure : ResolverFailure) :
  prefix <> [] ->
  resolve astSymbolTable workingPackage (reference prefix) = inr failure ->
  resolve astSymbolTable workingPackage (reference (prefix ++ later))
  = inr failure.
Proof.
  destruct prefix as [|rootMemberReference prefix]; [done|]. intros _ Hfailure.
  cbn [app]. by rewrite resolve_app, Hfailure.
Qed.

(** X12. The node that a reference resolves to lies below the node of
    its first segment, along a path of children that carry the
    identifiers of the later segments, one child per segment. *)
Theorem resolve_child_path (rootMemberReference : DocMemberReference.t)
  (rest : list DocMemberReference.t) (resolved : AstDeclaration) :
  resolve astSymbolTable workingPackage (reference (rootMemberReference :: rest))
  = inl resolved ->
  exists rootDeclaration names,
    resolve astSymbolTable workingPackage (reference [rootMemberReference])
    = inl rootDeclaration
    /\ Forall2 (fun memberReference memberName =>
                  DocMemberReference.memberIdentifier memberReference
                  = Some (DocMemberIdentifier.mk memberName)) rest names
    /\ ChildPath rootDeclaration names resolved.
Proof.
  change (rootMemberReference :: rest) with (rootMemberReference :: [] ++ rest).
  rewrite resolve_app.
  destruct (resolve astSymbolTable workingPackage (reference [rootMemberReference]))
    as [rootDeclaration|]; cbn [orReturn]; [|done].
  intros (names & Hnames & Hpath)%descend_ChildPath.
  by exists rootDeclaration, names.
Qed.

(** X13. After a resolved prefix, plain segments without selectors
    resolve to a node exactly when that node is reached by a path on
    which each name is carried by one child only. *)
Theorem resolve_plain_unique_path (prefix : list DocMemberReference.t)
  (names : list string) (currentDeclaration resolved : AstDeclaration) :
  resolve astSymbolTable workingPackage (reference prefix)
  = inl currentDeclaration ->
  resolve astSymbolTable workingPackage
    (reference (prefix ++ (plainSegment <$> names))) = inl resolved
  <-> UniquePath currentDeclaration names resolved.
Proof.
  intros Hprefix. rewrite (resolve_continue _ _ _ _ _ _ _ Hprefix).
  apply descend_plain_UniquePath.
Qed.

(** X14. A reference resolves only if both qualifier checks pass, it
    has a segment, and every segment is free of a member symbol, has an
    identifier, and has no selector or a system selector with a
    recognized tag. *)
Theorem resolve_inl_wellformed (segments : list DocMemberReference.t)
  (resolved : AstDeclaration) :
  resolve astSymbolTable workingPackage (reference segments) = inl resolved ->
  (forall declared, packageName = Some declared -> declared = name workingPackage)
  /\ (forall path, importPath = Some path -> path = EmptyString)
  /\ segments <> []
  /\ Forall Resolvable segments.
Proof.
  unfold resolve; cbn.
  destruct (isExternalPackage workingPackage packageName) eqn:Hexternal; [done|].
  destruct (truthy importPath) eqn:Htruthy; [done|].
  destruct segments as [|rootMemberReference rest]; [done|].
  destruct (_getMemberReferenceIdentifier rootMemberReference)
    as [exportName|] eqn:Hname; cbn [orReturn]; [|done].
  destruct (tryGetExportOfAstModule _ _ _)
    as [[localName astDeclarations|]|]; [|done|done].
  destruct (_selectDeclaration astDeclarations rootMemberReference localName)
    as [rootDeclaration|] eqn:Hroot; cbn [orReturn]; [|done].
  intros Hrest%descend_Resolvable.
  split; [by apply isExternalPackage_false_inv|].
  split; [by apply truthy_false_inv|].
  split; [done|]. constructor; [|done].
  apply getMemberReferenceIdentifier_inl in Hname as [Hsymbol Hidentifier].
  split; [done|]. split; [by rewrite Hidentifier|].
  intros selector Hselector.
  destruct (selectDeclaration_inl_selector _ _ _ _ _ Hroot Hselector)
    as [Hsystem Hkind].
  split; [done|]. by eapply recognizedKinds_fst.
Qed.

End ResolveSuccess.

(** ** [resolve]: the result and what it depends on *)

(** X15. The node a reference resolves to answers to its last segment:
    when that segment has a selector, the node has the kind of the
    selector's tag; when the segment is not the first one, the node
    carries the segment's identifier. *)
Theorem resolve_result_last_segment
  (astSymbolTable : AstSymbolTable) (workingPackage : WorkingPackage)
  (packageName importPath : option string)
  (prefix : list DocMemberReference.t) (last : DocMemberReference.t)
  (resolved : AstDeclaration) :
  resolve astSymbolTable workingPackage
    (DocDeclarationReference.mk packageName importPath (prefix ++ [last]))
  = inl resolved ->
  (forall selector,
     DocMemberReference.selector last = Some selector ->
     (DocMemberSelector.selector selector, declaration_kind resolved)
     ∈ recognizedKinds)
  /\ (prefix <> [] ->
      DocMemberReference.memberIdentifier last
      = Some (DocMemberIdentifier.mk (astSymbol_localName resolved))).
Proof.
  destruct prefix as [|rootMemberReference prefix].
  - unfold resolve; cbn.
    destruct (isExternalPackage workingPackage packageName); [done|].
    destruct (truthy importPath); [done|].
    destruct (_getMemberReferenceIdentifier last); cbn [orReturn]; [|done].
    destruct (tryGetExportOfAstModule _ _ _)
      as [[localName astDeclarations|]|]; [|done|done].
    destruct (_selectDeclaration astDeclarations last localName)
      as [rootDeclaration|] eqn:Hroot; cbn [orReturn]; [|done].
    intros [= ->]. split; [|done]. intros selector Hselector.
    by destruct (selectDeclaration_inl_selector _ _ _ _ _ Hroot Hselector).
  - cbn [app]. rewrite resolve_app.
    destruct (resolve _ _ _) as [reached|]; cbn [orReturn descend]; [|done].
    destruct (descendStep reached last) as [selected|] eqn:Hstep;
      cbn [orReturn]; [|done].
    intros [= ->]. split.
    + intros selector Hselector. unfold descendStep in Hstep.
      destruct (_getMemberReferenceIdentifier last) as [memberName|];
        cbn [orReturn] in Hstep; [|done].
      destruct (findChildrenWithName reached memberName) as [|first others];
        [done|].
      by destruct (selectDeclaration_inl_selector _ _ _ _ _ Hstep Hselector).
    + intros _.
      destruct (descendStep_child _ _ _ Hstep) as (memberName & Hname & _ & <-).
      by apply getMemberReferenceIdentifier_inl in Hname as [_ ?].
Qed.


(** X17. [resolve] reads the symbol table at one place only, the export
    of the entry module under the first segment's identifier: two
    tables that agree there resolve the reference alike. *)
Theorem resolve_table_local
  (astSymbolTable astSymbolTable' : AstSymbolTable)
  (workingPackage : WorkingPackage)
  (packageName importPath : option string)
  (rootMemberReference : DocMemberReference.t)
  (rest : list DocMemberReference.t) :
  (forall exportName,
     DocMemberReference.memberIdentifier rootMemberReference
     = Some (DocMemberIdentifier.mk exportName) ->
     tryGetExportOfAstModule astSymbolTable exportName
       (fetchAstModuleFromWorkingPackage astSymbolTable
          (entryPointSourceFile workingPackage))
     = tryGetExportOfAstModule astSymbolTable' exportName
         (fetchAstModuleFromWorkingPackage astSymbolTable'
            (entryPointSourceFile workingPackage))) ->
  resolve astSymbolTable workingPackage
    (DocDeclarationReference.mk packageName importPath
       (rootMemberReference :: rest))
  = resolve astSymbolTable' workingPackage
      (DocDeclarationReference.mk packageName importPath
         (rootMemberReference :: rest)).
Proof.
  intros Hagree. unfold resolve; cbn.
  destruct (isExternalPackage workingPackage packageName); [done|].
  destruct (truthy importPath); [done|].
  destruct (_getMemberReferenceIdentifier rootMemberReference)
    as [exportName|] eqn:Hname; cbn [orReturn]; [|done].
  apply getMemberReferenceIdentifier_inl in Hname as [_ Hidentifier].
  by rewrite (Hagree exportName Hidentifier).
Qed.

(** ** The further properties at concrete inputs *)
Section FurtherInstances.

Import Widgets.

Lemma selectDeclaration_unsupported_family_witness :
  _selectDeclaration [Button]
    (DocMemberReference.mk None (Some (DocMemberIdentifier.mk "Button"))
       (Some (DocMemberSelector.mk "class" Label))) "Button"
  = inr (UnsupportedSelectorFamily "class").
Proof.
  refine (selectDeclaration_unsupported_family [Button]
            (DocMemberReference.mk None (Some (DocMemberIdentifier.mk "Button"))
               (Some (DocMemberSelector.mk "class" Label)))
            "Button" (DocMemberSelector.mk "class" Label) eq_refl _).
  simpl. discriminate.
Defined.

Lemma selectDeclaration_Permutation_witness :
  _selectDeclaration [ShapeInterface; ShapeClass] (selected "Shape" "class") "Shape"
  = _selectDeclaration [ShapeClass; ShapeInterface] (selected "Shape" "class") "Shape".
Proof.
  refine (selectDeclaration_Permutation [ShapeInterface; ShapeClass]
            [ShapeClass; ShapeInterface] (selected "Shape" "class") "Shape" _).
  apply Permutation_swap.
Defined.

Lemma selectDeclaration_single_candidate_witness :
  _selectDeclaration [Button] (selected "Button" "class") "Button" = inl Button
  /\ _selectDeclaration [Button] (selected "Button" "interface") "Button"
     = inr (NoDeclarationForSelector "Button" "interface").
Proof.
  split.
  - refine (selectDeclaration_single_candidate Button (selected "Button" "class")
              "Button" (DocMemberSelector.mk "class" System) ts.ClassDeclaration
              eq_refl eq_refl _).
    vm_compute. left.
  - refine (selectDeclaration_single_candidate Button
              (selected "Button" "interface") "Button"
              (DocMemberSelector.mk "interface" System) ts.InterfaceDeclaration
              eq_refl eq_refl _).
    vm_compute. right. right. right. left.
Defined.

Lemma resolve_empty_reference_witness :
  resolve table workingPackage
    (DocDeclarationReference.mk (Some "widgets") (Some EmptyString) [])
  = inr EmptyReference.
Proof.
  refine (proj1 (resolve_empty_reference table workingPackage
                   (Some "widgets") (Some EmptyString) _ _)).
  - simpl. intros declared [= <-]. reflexivity.
  - intros path [= <-]. reflexivity.
Defined.

Lemma resolve_unknown_export_witness :
  resolve table workingPackage
    (local [selected "Gadget" "struct"; symbolKeyed "Symbol.iterator"])
  = inr (UnknownExport "widgets" "Gadget").
Proof.
  refine (resolve_unknown_export table workingPackage None None _ _
            (selected "Gadget" "struct") [symbolKeyed "Symbol.iterator"]
            "Gadget" eq_refl eq_refl _).
  - discriminate.
  - discriminate.
  - vm_compute. reflexivity.
Defined.

Lemma resolve_reexport_witness :
  resolve table workingPackage
    (local [selected "Legacy" "struct"; plain "anything"])
  = inr UnsupportedReexport.
Proof.
  refine (resolve_reexport table workingPackage None None _ _
            (selected "Legacy" "struct") [plain "anything"]
            "Legacy" "legacy-widgets" "Legacy" eq_refl eq_refl _).
  - discriminate.
  - discriminate.
  - vm_compute. reflexivity.
Defined.

Lemma resolve_single_plain_iff_witness :
  resolve table workingPackage (local [plainSegment "Button"]) = inl Button
  <-> exists localName,
        tryGetExportOfAstModule table "Button"
          (fetchAstModuleFromWorkingPackage table
             (entryPointSourceFile workingPackage))
        = Some (AstSymbol localName [Button]).
Proof.
  refine (resolve_single_plain_iff table workingPackage None None _ _
            "Button" Button).
  - discriminate.
  - discriminate.
Defined.

Lemma resolve_symbol_keyed_descent_witness :
  resolve table workingPackage
    (local [plain "Layout";
            DocMemberReference.mk (Some (DocMemberSymbol.mk "Symbol.iterator"))
              (Some (DocMemberIdentifier.mk "Grid")) None;
            plain "pack"])
  = inr UnsupportedSymbolSelector.
Proof.
  refine (resolve_symbol_keyed_descent table workingPackage None None
            [plain "Layout"] [plain "pack"]
            (DocMemberReference.mk (Some (DocMemberSymbol.mk "Symbol.iterator"))
               (Some (DocMemberIdentifier.mk "Grid")) None)
            Layout (DocMemberSymbol.mk "Symbol.iterator") _ eq_refl).
  vm_compute. reflexivity.
Defined.

Lemma resolve_prefix_closed_witness :
  exists reached,
    resolve table workingPackage (local [plain "Layout"]) = inl reached
    /\ descend reached [plain "Grid"; plain "pack"] = inl pack.
Proof.
  refine (resolve_prefix_closed table workingPackage None None
            [plain "Layout"] [plain "Grid"; plain "pack"] pack _ _).
  - discriminate.
  - vm_compute. reflexivity.
Defined.

Lemma resolve_first_failure_final_witness :
  resolve table workingPackage
    (local ([plain "Button"; plain "resize"] ++ [plain "deeper"]))
  = inr (AmbiguousReference "resize").
Proof.
  refine (resolve_first_failure_final table workingPackage None None
            [plain "Button"; plain "resize"] [plain "deeper"]
            (AmbiguousReference "resize") _ _).
  - discriminate.
  - vm_compute. reflexivity.
Defined.

Lemma resolve_child_path_witness :
  exists rootDeclaration names,
    resolve table workingPackage (local [plain "Layout"]) = inl rootDeclaration
    /\ Forall2 (fun memberReference memberName =>
                  DocMemberReference.memberIdentifier memberReference
                  = Some (DocMemberIdentifier.mk memberName))
         [selected "Grid" "class"; plain "pack"] names
    /\ ChildPath rootDeclaration names pack.
Proof.
  refine (resolve_child_path table workingPackage None None
            (plain "Layout") [selected "Grid" "class"; plain "pack"] pack _).
  vm_compute. reflexivity.
Defined.

Lemma resolve_plain_unique_path_witness :
  resolve table workingPackage
    (local ([plain "Layout"] ++ (plainSegment <$> ["Grid"; "pack"]))) = inl pack
  <-> UniquePath Layout ["Grid"; "pack"] pack.
Proof.
  refine (resolve_plain_unique_path table workingPackage None None
            [plain "Layout"] ["Grid"; "pack"] Layout pack _).
  vm_compute. reflexivity.
Defined.

Lemma resolve_inl_wellformed_witness :
  (forall declared, Some "widgets" = Some declared -> declared = name workingPackage)
  /\ (forall path, @None string = Some path -> path = EmptyString)
  /\ [selected "Shape" "class"] <> []
  /\ Forall Resolvable [selected "Shape" "class"].
Proof.
  refine (resolve_inl_wellformed table workingPackage (Some "widgets") None
            [selected "Shape" "class"] ShapeClass _).
  vm_compute. reflexivity.
Defined.

Lemma resolve_result_last_segment_witness :
  (forall selector,
     DocMemberReference.selector (selected "Grid" "class") = Some selector ->
     (DocMemberSelector.selector selector, declaration_kind Grid)
     ∈ recognizedKinds)
  /\ ([plain "Layout"] <> [] ->
      DocMemberReference.memberIdentifier (selected "Grid" "class")
      = Some (DocMemberIdentifier.mk (astSymbol_localName Grid))).
Proof.
  refine (resolve_result_last_segment table workingPackage None None
            [plain "Layout"] (selected "Grid" "class") Grid _).
  vm_compute. reflexivity.
Defined.

Lemma resolve_table_local_witness :
  resolve table workingPackage (local [plain "Button"; plain "onClick"])
  = resolve
      {| moduleExports := <["index.d.ts" := delete "Shape" exports]> ∅ |}
      workingPackage (local [plain "Button"; plain "onClick"]).
Proof.
  refine (resolve_table_local table
            {| moduleExports := <["index.d.ts" := delete "Shape" exports]> ∅ |}
            workingPackage None None (plain "Button") [plain "onClick"] _).
  intros exportName [= <-]. vm_compute. reflexivity.
Defined.

End FurtherInstances.


(** * Properties of PurgeManager *)
Module PurgeProperties.

Import Purge.

(** ** The first piece of a path *)

Lemma split_cons (text : string) :
  exists piece pieces, split text = piece :: pieces.
Proof.
  destruct text as [|c rest]; cbn -[isPathSeparator]; [by eauto|].
  destruct (isPathSeparator c); [by eauto|].
  destruct (split rest); by eauto.
Qed.

Lemma firstPiece_split_LeadingPiece (text : string) :
  LeadingPiece (firstPiece (split text)) text.
Proof.
  induction text as [|c rest [Hnone Hrest]]; cbn -[isPathSeparator].
  - split; [constructor|by left].
  - destruct (isPathSeparator c) eqn:Hc; cbn -[isPathSeparator].
    + split; [constructor|]. right. by exists c, rest.
    + destruct (split_cons rest) as (piece & pieces & Hsplit).
      rewrite Hsplit in *. cbn in *. split.
      * by constructor.
      * destruct Hrest as [->|(separator & tail & Hseparator & ->)];
          [by left|].
        right. by exists separator, tail.
Qed.

Lemma LeadingPiece_firstPiece_split (piece text : string) :
  LeadingPiece piece text -> firstPiece (split text) = piece.
Proof.
  intros [Hnone Htext]. revert text Htext.
  induction piece as [|c piece IH]; intros text Htext.
  - destruct Htext as [->|(separator & tail & Hseparator & ->)]; [done|].
    change (firstPiece (split (String separator tail)) = EmptyString).
    cbn -[isPathSeparator]. by rewrite Hseparator.
  - apply Forall_cons in Hnone as [Hc Hnone].
    assert (exists rest, text = String c rest
                         /\ (rest = piece
                             \/ exists separator tail,
                                  isPathSeparator separator = true
                                  /\ rest = piece +:+ String separator tail))
      as (rest & -> & Hrest).
    { destruct Htext as [->|(separator & tail & Hseparator & ->)].
      - exists piece. by split; [|left].
      - exists (piece +:+ String separator tail). split; [done|].
        right. by exists separator, tail. }
    cbn -[isPathSeparator]. rewrite Hc. specialize (IH Hnone rest Hrest).
    destruct (split_cons rest) as (first & pieces & Hsplit).
    rewrite Hsplit in *. cbn in *. by rewrite IH.
Qed.

(** ** [_getMembersToExclude] *)
Section GetMembersToExclude.

Variable env : Environment.
Variable folderToRecycle : string.
Variable showWarning : bool.

(** [path.relative(folderToRecycle, path.resolve(__dirname))] *)
Local Abbreviation relative :=
  (path_relative env folderToRecycle (path_resolve env (__dirname env))).

Local Abbreviation warning firstPart :=
  (ConsoleLog (colors_yellow env
     ("The active process's folder will not be deleted: " +:+
      path_join env folderToRecycle firstPart))).

(** The two outcomes of the method. *)
Lemma getMembersToExclude_cases :
  _getMembersToExclude env folderToRecycle showWarning
  = (let firstPart := firstPiece (split relative) in
     if negb (path_isAbsolute env relative)
        && (0 <? String.length firstPart)%nat
        && negb (String.eqb firstPart "..")
     then ([rushRecyclerFolderName env; firstPart],
           if showWarning then [warning firstPart] else [])
     else ([rushRecyclerFolderName env], [])).
Proof.
  unfold _getMembersToExclude. cbn zeta.
  destruct (path_isAbsolute env relative); cbn [negb andb]; [done|].
  destruct (_ && _); [|done]. by destruct showWarning.
Qed.

(** X18. The list of members to exclude always starts with the recycler
    folder's name and has at most one more member; that member is a
    non-empty name without a path separator, is not [..], and is the
    leading piece of the path from the folder to the running process,
    which is then not absolute. *)
Theorem getMembersToExclude_members :
  exists others,
    fst (_getMembersToExclude env folderToRecycle showWarning)
    = rushRecyclerFolderName env :: others
    /\ (others = []
        \/ exists firstPart,
             others = [firstPart]
             /\ path_isAbsolute env relative = false
             /\ firstPart <> EmptyString
             /\ firstPart <> ".."
             /\ LeadingPiece firstPart relative).
Proof.
  rewrite getMembersToExclude_cases. cbn zeta.
  pose proof (firstPiece_split_LeadingPiece relative) as Hleading.
  destruct (path_isAbsolute env relative); cbn [negb andb];
    [by exists []; split; [|left]|].
  destruct (firstPiece (split relative)) as [|c piece] eqn:Hpiece;
    [by exists []; split; [|left]|].
  cbn [String.length Nat.ltb Nat.leb andb].
  destruct (String.eqb (String c piece) "..") eqn:Hdots; cbn [negb];
    [by exists []; split; [|left]|].
  apply String.eqb_neq in Hdots.
  exists [String c piece]. split; [done|]. right.
  by exists (String c piece).
Qed.

(** X19. When the running process lies in the folder, under a member
    whose name is not [..], that member is excluded together with the
    recycler folder, and the warning that names it is printed exactly
    when a warning is asked for. *)
Theorem getMembersToExclude_inside (firstPart : string) :
  path_isAbsolute env relative = false ->
  LeadingPiece firstPart relative ->
  firstPart <> EmptyString ->
  firstPart <> ".." ->
  _getMembersToExclude env folderToRecycle showWarning
  = ([rushRecyclerFolderName env; firstPart],
     if showWarning then [warning firstPart] else []).
Proof.
  intros Habsolute Hleading Hnonempty Hdots.
  rewrite getMembersToExclude_cases. cbn zeta.
  rewrite (LeadingPiece_firstPiece_split _ _ Hleading), Habsolute.
  apply String.eqb_neq in Hdots. rewrite Hdots.
  by destruct firstPart.
Qed.

(** X20. When the path from the folder to the running process is
    absolute, is empty, starts with a separator, or starts with the
    piece [..], only the recycler folder is excluded and nothing is
    printed. *)
Theorem getMembersToExclude_outside :
  path_isAbsolute env relative = true
  \/ LeadingPiece EmptyString relative
  \/ LeadingPiece ".." relative ->
  _getMembersToExclude env folderToRecycle showWarning
  = ([rushRecyclerFolderName env], []).
Proof.
  intros Houtside. rewrite getMembersToExclude_cases. cbn zeta.
  destruct Houtside as [->|[Hleading|Hleading]]; [done| |];
    rewrite (LeadingPiece_firstPiece_split _ _ Hleading);
    by destruct (path_isAbsolute env relative).
Qed.

(** X21. The method acts on the console only, with one line at most,
    and not at all when no warning is asked for or when nothing but the
    recycler folder is excluded. *)
Theorem getMembersToExclude_actions :
  (actionsOf (_getMembersToExclude env folderToRecycle showWarning) = []
   \/ exists text,
        actionsOf (_getMembersToExclude env folderToRecycle showWarning)
        = [ConsoleLog text])
  /\ (showWarning = false ->
      actionsOf (_getMembersToExclude env folderToRecycle showWarning) = [])
  /\ (fst (_getMembersToExclude env folderToRecycle showWarning)
      = [rushRecyclerFolderName env] ->
      actionsOf (_getMembersToExclude env folderToRecycle showWarning) = []).
Proof.
  rewrite getMembersToExclude_cases. cbn zeta.
  destruct (_ && _); cbn.
  - destruct showWarning; repeat split; try done; by eauto.
  - repeat split; try done; by left.
Qed.

End GetMembersToExclude.

(** ** [purgeNormal] and [purgeUnsafe] *)

Lemma actionsOf_andThen {A B : Type} (first : Acting A) (next : A -> Acting B) :
  actionsOf (andThen first next)
  = (actionsOf first ++ actionsOf (next (fst first)))%list.
Proof. destruct first as [value actions]; cbn. by destruct (next value). Qed.

Lemma moves_ConsoleLog (text : string) (actions : list Action) :
  moves (ConsoleLog text :: actions) = moves actions.
Proof. done. Qed.

Lemma moves_app (actions actions' : list Action) :
  moves (actions ++ actions')%list = (moves actions ++ moves actions')%list.
Proof. apply filter_app. Qed.

Lemma moves_MoveAllItemsInFolder (recycler : AsyncRecycler)
  (resolvedFolderPath : string) (membersToExclude : list string)
  (actions : list Action) :
  moves (MoveAllItemsInFolder recycler resolvedFolderPath membersToExclude
         :: actions)
  = MoveAllItemsInFolder recycler resolvedFolderPath membersToExclude
    :: moves actions.
Proof. done. Qed.

Lemma moves_getMembersToExclude (env : Environment) (folderToRecycle : string)
  (showWarning : bool) :
  moves (actionsOf (_getMembersToExclude env folderToRecycle showWarning)) = [].
Proof.
  rewrite getMembersToExclude_cases. cbn zeta.
  destruct (_ && _); [|done]. by destruct showWarning.
Qed.

Lemma getMembersToExclude_no_DeleteAll (env : Environment)
  (folderToRecycle : string) (showWarning : bool) (recycler : AsyncRecycler) :
  DeleteAll recycler
  ∉ actionsOf (_getMembersToExclude env folderToRecycle showWarning).
Proof.
  rewrite getMembersToExclude_cases. cbn zeta.
  destruct (_ && _); [destruct showWarning|]; cbn;
    rewrite ?not_elem_of_cons; repeat split; try done; apply not_elem_of_nil.
Qed.

Lemma getMembersToExclude_head (env : Environment) (folderToRecycle : string)
  (showWarning : bool) :
  exists others,
    fst (_getMembersToExclude env folderToRecycle showWarning)
    = rushRecyclerFolderName env :: others.
Proof.
  rewrite getMembersToExclude_cases. cbn zeta.
  destruct (_ && _); by eauto.
Qed.

(** X22. [purgeUnsafe] first does all that [purgeNormal] does.  It asks
    for three moves and no deletion: the common temp folder into the
    common recycler, then the node-specific folder and the global folder
    into the user's recycler; every move excludes the recycler folder's
    name first. *)
Theorem purgeUnsafe_moves (env : Environment) (this : PurgeManager) :
  (exists later,
     actionsOf (purgeUnsafe env this)
     = (actionsOf (purgeNormal env this) ++ later)%list)
  /\ (exists others1 others2 others3,
        moves (actionsOf (purgeUnsafe env this))
        = [MoveAllItemsInFolder (_commonTempFolderRecycler this)
             (commonTempFolder (_rushConfiguration this))
             (rushRecyclerFolderName env :: others1);
           MoveAllItemsInFolder (_rushUserFolderRecycler this)
             (nodeSpecificPath (_rushGlobalFolder this))
             (rushRecyclerFolderName env :: others2);
           MoveAllItemsInFolder (_rushUserFolderRecycler this)
             (path (_rushGlobalFolder this))
             (rushRecyclerFolderName env :: others3)])
  /\ forall recycler, DeleteAll recycler ∉ actionsOf (purgeUnsafe env this).
Proof.
  destruct (getMembersToExclude_head env
              (commonTempFolder (_rushConfiguration this)) true)
    as (others1 & Hmembers1).
  destruct (getMembersToExclude_head env
              (nodeSpecificPath (_rushGlobalFolder this)) true)
    as (others2 & Hmembers2).
  destruct (getMembersToExclude_head env
              (path (_rushGlobalFolder this)) false)
    as (others3 & Hmembers3).
  split; [|split].
  - unfold purgeUnsafe. rewrite actionsOf_andThen. by eexists.
  - exists others1, others2, others3.
    unfold purgeUnsafe, purgeNormal.
    rewrite !actionsOf_andThen. cbn [actionsOf perform snd fst].
    rewrite Hmembers1, Hmembers2, Hmembers3.
    repeat (rewrite moves_app || rewrite moves_ConsoleLog
            || rewrite moves_MoveAllItemsInFolder
            || rewrite moves_getMembersToExclude).
    reflexivity.
  - intros recycler. unfold purgeUnsafe, purgeNormal.
    rewrite !actionsOf_andThen. cbn [actionsOf perform snd fst].
    rewrite !not_elem_of_app, !not_elem_of_cons.
    repeat split; try done;
      try apply getMembersToExclude_no_DeleteAll; apply not_elem_of_nil.
Qed.

(** ** The example environment *)

Example purgeUnsafe_example :
  actionsOf (purgeUnsafe Example.env Example.purgeManager)
  = [ConsoleLog "Purging /repo/common/temp";
     MoveAllItemsInFolder {| recyclerFolder := "/repo/common/temp/rush-recycler" |}
       "/repo/common/temp" ["rush-recycler"];
     ConsoleLog "Purging /home/user/.rush";
     ConsoleLog "The active process's folder will not be deleted: /home/user/.rush/node-v4.5.6/rush-1.2.3";
     MoveAllItemsInFolder {| recyclerFolder := "/home/user/.rush/rush-recycler" |}
       "/home/user/.rush/node-v4.5.6" ["rush-recycler"; "rush-1.2.3"];
     MoveAllItemsInFolder {| recyclerFolder := "/home/user/.rush/rush-recycler" |}
       "/home/user/.rush" ["rush-recycler"; "node-v4.5.6"]].
Proof. vm_compute. reflexivity. Qed.

Lemma getMembersToExclude_inside_witness :
  _getMembersToExclude Example.env "/home/user/.rush/node-v4.5.6" true
  = (["rush-recycler"; "rush-1.2.3"],
     [ConsoleLog "The active process's folder will not be deleted: /home/user/.rush/node-v4.5.6/rush-1.2.3"])
  /\ _getMembersToExclude Example.env "/home/user/.rush" false
     = (["rush-recycler"; "node-v4.5.6"], []).
Proof.
  split.
  - refine (getMembersToExclude_inside Example.env
              "/home/user/.rush/node-v4.5.6" true "rush-1.2.3" _ _ _ _).
    + vm_compute. reflexivity.
    + split.
      * vm_compute. repeat constructor.
      * right. exists "/"%char, "lib". vm_compute. split; reflexivity.
    + discriminate.
    + discriminate.
  - refine (getMembersToExclude_inside Example.env
              "/home/user/.rush" false "node-v4.5.6" _ _ _ _).
    + vm_compute. reflexivity.
    + split.
      * vm_compute. repeat constructor.
      * right. exists "/"%char, "rush-1.2.3/lib". vm_compute. split; reflexivity.
    + discriminate.
    + discriminate.
Defined.

Lemma getMembersToExclude_outside_witness :
  _getMembersToExclude Example.env "/repo/common/temp" true
  = (["rush-recycler"], [])
  /\ _getMembersToExclude Example.env
       "/home/user/.rush/node-v4.5.6/rush-1.2.3/lib" true
     = (["rush-recycler"], []).
Proof.
  split.
  - refine (getMembersToExclude_outside Example.env "/repo/common/temp" true _).
    right. right. split.
    + vm_compute. repeat constructor.
    + left. vm_compute. reflexivity.
  - refine (getMembersToExclude_outside Example.env
              "/home/user/.rush/node-v4.5.6/rush-1.2.3/lib" true _).
    right. left. split.
    + vm_compute. constructor.
    + left. vm_compute. reflexivity.
Defined.

End PurgeProperties.
